(** * energy-calculator-backend: the chart normalizer of [server.py]

    A shallow embedding of the request handlers [analyze_chart] and
    [delete_calculation] of [src/server.py], with the parts of the Python
    runtime they call ([re], [json], [float], [sum], [len], slicing), and
    the properties of the response normalizer proved over it.

    Conventions.
    - A Python [str] is a list of code points ([list N]).  A Rocq string
      literal cannot spell a double quote here, so raw texts are written with
      an apostrophe wherever the text has a double quote; [txt] converts.
    - A Python [float] is a binary64 [spec_float] (precision 53, emax 1024).
    - An exception is a value of [exn]; code that may raise returns [res]. *)

From Stdlib Require Import ZArith NArith List String Ascii Bool Lia Decimal.
From Stdlib Require Import SpecFloat.
From stdpp Require Import base option list gmap.

Local Open Scope N_scope.

(** ** Python strings *)

Abbreviation char := N.
Abbreviation str := (list N).

Definition chr (a : ascii) : char := N_of_ascii a.

(** [txt] reads a literal: every apostrophe stands for a double quote. *)
Definition txt (s : string) : str :=
  map (fun a => if N_of_ascii a =? 39 then 34 else N_of_ascii a) (list_ascii_of_string s).

Definition quote : char := 34.

Fixpoint str_of_uint (d : Decimal.uint) : str :=
  match d with
  | Nil => []
  | D0 d => 48 :: str_of_uint d
  | D1 d => 49 :: str_of_uint d
  | D2 d => 50 :: str_of_uint d
  | D3 d => 51 :: str_of_uint d
  | D4 d => 52 :: str_of_uint d
  | D5 d => 53 :: str_of_uint d
  | D6 d => 54 :: str_of_uint d
  | D7 d => 55 :: str_of_uint d
  | D8 d => 56 :: str_of_uint d
  | D9 d => 57 :: str_of_uint d
  end.

(** [str(n)] of a natural number. *)
Definition str_of_nat (n : nat) : str := str_of_uint (Nat.to_uint n).

(** [s.replace(c, '')] for a one-character [c]. *)
Definition remove_char (c : char) (s : str) : str :=
  filter (fun x => x ≠ c) s.

(** The Unicode decimal digits (general category Nd, Unicode 14.0 as in
    CPython 3.11): runs of code points [(first, length)]; in every run the
    digit value of a code point is its offset modulo ten. *)
Definition decimal_runs : list (N * N) :=
  [ (0x30, 10); (0x660, 10); (0x6f0, 10); (0x7c0, 10); (0x966, 10); (0x9e6, 10);
    (0xa66, 10); (0xae6, 10); (0xb66, 10); (0xbe6, 10); (0xc66, 10); (0xce6, 10);
    (0xd66, 10); (0xde6, 10); (0xe50, 10); (0xed0, 10); (0xf20, 10); (0x1040, 10);
    (0x1090, 10); (0x17e0, 10); (0x1810, 10); (0x1946, 10); (0x19d0, 10);
    (0x1a80, 10); (0x1a90, 10); (0x1b50, 10); (0x1bb0, 10); (0x1c40, 10);
    (0x1c50, 10); (0xa620, 10); (0xa8d0, 10); (0xa900, 10); (0xa9d0, 10);
    (0xa9f0, 10); (0xaa50, 10); (0xabf0, 10); (0xff10, 10); (0x104a0, 10);
    (0x10d30, 10); (0x11066, 10); (0x110f0, 10); (0x11136, 10); (0x111d0, 10);
    (0x112f0, 10); (0x11450, 10); (0x114d0, 10); (0x11650, 10); (0x116c0, 10);
    (0x11730, 10); (0x118e0, 10); (0x11950, 10); (0x11c50, 10); (0x11d50, 10);
    (0x11da0, 10); (0x16a60, 10); (0x16ac0, 10); (0x16b50, 10); (0x1d7ce, 50);
    (0x1e140, 10); (0x1e2f0, 10); (0x1e950, 10); (0x1fbf0, 10) ].

Fixpoint decimal_in (runs : list (N * N)) (c : char) : option N :=
  match runs with
  | [] => None
  | (first, len) :: runs' =>
      if (first <=? c) && (c <? first + len) then Some ((c - first) mod 10)
      else decimal_in runs' c
  end.

(** The digit value of a decimal digit, [None] for any other character. *)
Definition decimal_value (c : char) : option N := decimal_in decimal_runs c.

Definition is_decimal (c : char) : bool :=
  match decimal_value c with Some _ => true | None => false end.

(** ** Exceptions and results *)

Inductive exn : Type :=
| ValueError
| JSONDecodeError
| TypeError
| AttributeError
| OverflowError
| RecursionError
| InvalidId
| ExternalError (msg : string)
| HTTPException (status_code : Z) (detail : http_detail)
with http_detail : Type :=
| Literal (text : string)
| Formatted (prefix : string) (e : exn).

Inductive res (A : Type) : Type :=
| Ok (a : A)
| Raise (e : exn).
Arguments Ok {A} a.
Arguments Raise {A} e.

#[global] Instance res_ret : MRet res := fun A a => Ok a.
#[global] Instance res_bind : MBind res := fun A B f m =>
  match m with Ok a => f a | Raise e => Raise e end.

(** [try: body / except: handler], the bare clause that catches everything. *)
Definition try_except {A} (body : res A) (handler : res A) : res A :=
  match body with Ok a => Ok a | Raise _ => handler end.

(** ** Python values *)

#[local] Set Warnings "-register-all".

Inductive pyval : Type :=
| PNone
| PBool (b : bool)
| PInt (z : Z)
| PFloat (f : spec_float)
| PStr (s : str)
| PList (l : list pyval)
| PDict (d : list (str * pyval)).

Definition prec : Z := 53.
Definition emax : Z := 1024.

(** The binary64 nearest to [(-1)^neg * m * 10^e], ties to even: what
    [float] returns for a decimal literal. *)
Definition float_of_decimal (neg : bool) (m : Z) (e : Z) : spec_float :=
  match m with
  | Zpos _ =>
      match e with
      | Zneg k =>
          let '(q, e', l) := SFdiv_core_binary prec emax m 0 (Z.pow 10 (Zpos k)) 0 in
          binary_round_aux prec emax neg q e' l
      | _ => binary_normalize prec emax (if neg then Z.opp (m * Z.pow 10 e) else (m * Z.pow 10 e))%Z 0 false
      end
  | _ => S754_zero neg
  end.

(** The value of a string of decimal digits, most significant first. *)
Fixpoint digits_value (acc : Z) (s : str) : option Z :=
  match s with
  | [] => Some acc
  | c :: s' =>
      match decimal_value c with
      | Some d => digits_value (10 * acc + Z.of_N d)%Z s'
      | None => None
      end
  end.

(** [float(s)] for the strings this program passes: a non-empty run of
    decimal digits.  [float] reads more forms (sign, fraction, exponent,
    blanks, underscores, inf, nan); none of them reaches the call in
    [analyze_chart], see [float_of_token]. *)
Definition py_float (s : str) : res pyval :=
  match s with
  | [] => Raise ValueError
  | _ => match digits_value 0 s with
         | Some m => Ok (PFloat (float_of_decimal false m 0))
         | None => Raise ValueError
         end
  end.

(** [float(n)] of an [int]: correctly rounded, OverflowError when the int is
    too large for a binary64. *)
Definition float_of_int (z : Z) : res spec_float :=
  match binary_normalize prec emax z 0 false with
  | S754_infinity _ => Raise OverflowError
  | f => Ok f
  end.

(** [a + b] for a number [a] (a bool counts as the int 0 or 1). *)
Definition py_add (a b : pyval) : res pyval :=
  let int_of v := match v with
                  | PBool true => Some 1%Z | PBool false => Some 0%Z
                  | PInt z => Some z | _ => None end in
  match int_of a, int_of b, a, b with
  | Some x, Some y, _, _ => Ok (PInt (x + y))
  | Some x, None, _, PFloat g => f ← float_of_int x; Ok (PFloat (SFadd prec emax f g))
  | None, Some y, PFloat f, _ => g ← float_of_int y; Ok (PFloat (SFadd prec emax f g))
  | None, None, PFloat f, PFloat g => Ok (PFloat (SFadd prec emax f g))
  | _, _, _, _ => Raise TypeError
  end.

(** Iterating over a value: the elements of a list, the characters of a str,
    the keys of a dict; anything else is not iterable. *)
Definition py_iter (v : pyval) : res (list pyval) :=
  match v with
  | PList l => Ok l
  | PStr s => Ok (map (fun c => PStr [c]) s)
  | PDict d => Ok (map (fun kv => PStr (fst kv)) d)
  | _ => Raise TypeError
  end.

Fixpoint sum_from (acc : pyval) (l : list pyval) : res pyval :=
  match l with
  | [] => Ok acc
  | x :: l' => acc' ← py_add acc x; sum_from acc' l'
  end.

(** [sum(v)]: the items added left to right, starting from the int 0. *)
Definition py_sum (v : pyval) : res pyval :=
  l ← py_iter v; sum_from (PInt 0) l.

(** [len(v)]. *)
Definition py_len (v : pyval) : res nat :=
  match v with
  | PStr s => Ok (length s)
  | PList l => Ok (length l)
  | PDict d => Ok (length d)
  | _ => Raise TypeError
  end.

(** [v.extend(items)]: only a list has the method. *)
Definition py_extend (v : pyval) (items : list pyval) : res pyval :=
  match v with
  | PList l => Ok (PList (l ++ items))
  | _ => Raise AttributeError
  end.

(** [v[:n]]. *)
Definition py_slice_to (n : nat) (v : pyval) : res pyval :=
  match v with
  | PList l => Ok (PList (take n l))
  | PStr s => Ok (PStr (take n s))
  | _ => Raise TypeError
  end.

(** [d.get(key, default)]. *)
Fixpoint dict_lookup (key : str) (d : list (str * pyval)) : option pyval :=
  match d with
  | [] => None
  | (k, v) :: d' => if decide (k = key) then Some v else dict_lookup key d'
  end.

(** [d[key] = v]: a key already present keeps its place. *)
Fixpoint dict_set (key : str) (v : pyval) (d : list (str * pyval)) : list (str * pyval) :=
  match d with
  | [] => [(key, v)]
  | (k, w) :: d' => if decide (k = key) then (k, v) :: d' else (k, w) :: dict_set key v d'
  end.

Definition py_get (data : pyval) (key : str) (dflt : pyval) : res pyval :=
  match data with
  | PDict d => Ok (default dflt (dict_lookup key d))
  | _ => Raise AttributeError
  end.

(** ** Regular expressions ([re])

    The two patterns of [analyze_chart] are sequences of character classes,
    each taken once or under a greedy [+] or [*].  [match_here] is the
    backtracking matcher of [re] on such sequences: a greedy item first takes
    as many characters as it can and gives them back one at a time while the
    rest of the pattern fails. *)

Inductive cclass : Type :=
| Chr (c : char)            (* the character itself, as in [\{] *)
| NotChr (c : char)         (* [[^c]]; with re.DOTALL or not, it takes a newline *)
| Digit                     (* [\d] of a str pattern: a Unicode decimal digit *)
| Union (a b : cclass).     (* [[ab]] *)

Inductive quant : Type := Once | Plus | Star.

Definition regex := list (cclass * quant).

Fixpoint in_class (k : cclass) (c : char) : bool :=
  match k with
  | Chr x => c =? x
  | NotChr x => negb (c =? x)
  | Digit => is_decimal c
  | Union a b => in_class a c || in_class b c
  end.

Definition consume (c : char) (r : option (str * str)) : option (str * str) :=
  match r with
  | Some (m, rest) => Some (c :: m, rest)
  | None => None
  end.

(** A greedy [k*] followed by the rest of the pattern: take a character of
    the class while the whole still matches, give it back otherwise. *)
Fixpoint greedy (k : cclass) (rest : str -> option (str * str)) (s : str)
  : option (str * str) :=
  match s with
  | c :: t =>
      if in_class k c then
        match greedy k rest t with
        | Some (m, s') => Some (c :: m, s')
        | None => rest s
        end
      else rest s
  | [] => rest s
  end.

(** One character of the class, then [next]. *)
Definition one (k : cclass) (next : str -> option (str * str)) (s : str)
  : option (str * str) :=
  match s with
  | c :: t => if in_class k c then consume c (next t) else None
  | [] => None
  end.

(** [match_here r s]: the match of [r] at the start of [s], as the matched
    text and what follows it. *)
Fixpoint match_here (r : regex) : str -> option (str * str) :=
  match r with
  | [] => fun s => Some ([], s)
  | (k, q) :: r' =>
      let rest := match_here r' in
      match q with
      | Once => one k rest
      | Plus => one k (greedy k rest)
      | Star => greedy k rest
      end
  end.

(** [re.search(r, s)]: [group(0)] of the leftmost match, if any. *)
Fixpoint re_search (r : regex) (s : str) : option str :=
  match match_here r s with
  | Some (m, _) => Some m
  | None =>
      match s with
      | [] => None
      | _ :: t => re_search r t
      end
  end.

(** [re.findall(r, s)] for a pattern without groups that matches no empty
    text: the matches from left to right, each search resuming where the
    previous match ended.  [skip] counts the characters of the current match
    still to pass. *)
Fixpoint findall_from (r : regex) (skip : nat) (s : str) : list str :=
  match s with
  | [] => []
  | _ :: t =>
      match skip with
      | S k => findall_from r k t
      | O =>
          match match_here r s with
          | Some (m, _) => m :: findall_from r (Nat.pred (length m)) t
          | None => findall_from r 0 t
          end
      end
  end.

Definition re_findall (r : regex) (s : str) : list str := findall_from r 0 s.

(** [r'\{[^}]+\}'] *)
Definition json_re : regex :=
  [ (Chr (chr "{"), Once); (NotChr (chr "}"), Plus); (Chr (chr "}"), Once) ].

(** [r'\d+[,\d]*'] *)
Definition number_re : regex :=
  [ (Digit, Plus); (Union (Chr (chr ",")) Digit, Star) ].

(** ** JSON ([json.loads], the scanner of CPython's [_json])

    Every way the decoder fails (JSONDecodeError, the ValueError of an int
    literal longer than [int_max_str_digits], RecursionError) is an exception
    that the bare [except:] of [analyze_chart] catches. *)

Definition backslash : char := 92.

Definition is_ws (c : char) : bool :=
  (c =? 32) || (c =? 9) || (c =? 10) || (c =? 13).

Fixpoint skip_ws (s : str) : str :=
  match s with
  | c :: t => if is_ws c then skip_ws t else s
  | [] => []
  end.

Definition is_ascii_digit (c : char) : bool := (48 <=? c) && (c <=? 57).

Definition hex_value (c : char) : option N :=
  if is_ascii_digit c then Some (c - 48)
  else if (97 <=? c) && (c <=? 102) then Some (c - 87)
  else if (65 <=? c) && (c <=? 70) then Some (c - 55)
  else None.

Definition hex4 (a b c d : char) : option N :=
  match hex_value a, hex_value b, hex_value c, hex_value d with
  | Some x, Some y, Some z, Some w => Some (((x * 16 + y) * 16 + z) * 16 + w)
  | _, _, _, _ => None
  end.

Definition is_high_surrogate (u : N) : bool := (0xD800 <=? u) && (u <=? 0xDBFF).
Definition is_low_surrogate (u : N) : bool := (0xDC00 <=? u) && (u <=? 0xDFFF).
Definition join_surrogates (hi lo : N) : N :=
  0x10000 + (hi - 0xD800) * 0x400 + (lo - 0xDC00).

(** The character a one-letter escape stands for. *)
Definition simple_escape (c : char) : option char :=
  if c =? quote then Some quote
  else if c =? backslash then Some backslash
  else if c =? chr "/" then Some (chr "/")
  else if c =? chr "b" then Some 8
  else if c =? chr "f" then Some 12
  else if c =? chr "n" then Some 10
  else if c =? chr "r" then Some 13
  else if c =? chr "t" then Some 9
  else None.

Definition push (c : char) (r : res (str * str)) : res (str * str) :=
  '(m, rest) ← r; Ok (c :: m, rest).

(** [scanstring] in strict mode, from just after the opening quote: the
    decoded string and the text after the closing quote. *)
Fixpoint scanstring (s : str) : res (str * str) :=
  match s with
  | [] => Raise JSONDecodeError
  | c :: t =>
      if c =? quote then Ok ([], t)
      else if c =? backslash then
        match t with
        | [] => Raise JSONDecodeError
        | e :: t1 =>
            if e =? chr "u" then
              match t1 with
              | h1 :: h2 :: h3 :: h4 :: t2 =>
                  match hex4 h1 h2 h3 h4 with
                  | None => Raise JSONDecodeError
                  | Some u =>
                      match t2 with
                      | b :: v :: g1 :: g2 :: g3 :: g4 :: t3 =>
                          if is_high_surrogate u && (b =? backslash) && (v =? chr "u") then
                            match hex4 g1 g2 g3 g4 with
                            | None => Raise JSONDecodeError
                            | Some u2 =>
                                if is_low_surrogate u2
                                then push (join_surrogates u u2) (scanstring t3)
                                else push u (scanstring t2)
                            end
                          else push u (scanstring t2)
                      | _ => push u (scanstring t2)
                      end
                  end
              | _ => Raise JSONDecodeError
              end
            else
              match simple_escape e with
              | Some x => push x (scanstring t1)
              | None => Raise JSONDecodeError
              end
        end
      else if c <=? 0x1f then Raise JSONDecodeError
      else push c (scanstring t)
  end.

Fixpoint span_digits (s : str) : str * str :=
  match s with
  | c :: t => if is_ascii_digit c then let '(d, r) := span_digits t in (c :: d, r) else ([], s)
  | [] => ([], [])
  end.

Definition ascii_digits_value (d : str) : Z :=
  fold_left (fun acc c => (10 * acc + Z.of_N (c - 48))%Z) d 0%Z.

(** [sys.int_info.default_max_str_digits]: [int] refuses a longer literal
    with ValueError. *)
Definition int_max_str_digits : nat := 4300.

(** The integer part of a JSON number: [0] alone, or digits that start with
    [1] to [9]. *)
Definition span_int (s : str) : option (str * str) :=
  match s with
  | c :: t =>
      if c =? 48 then Some ([c], t)
      else if is_ascii_digit c then Some (span_digits s)
      else None
  | [] => None
  end.

Definition span_frac (s : str) : str * str :=
  match s with
  | p :: c :: _ =>
      if (p =? chr ".") && is_ascii_digit c then span_digits (tail s) else ([], s)
  | _ => ([], s)
  end.

(** The exponent of a JSON number, if one follows: its value and the rest. *)
Definition span_exp (s : str) : option (Z * str) :=
  match s with
  | e :: t =>
      if (e =? chr "e") || (e =? chr "E") then
        let '(neg, t') :=
          match t with
          | c :: u => if c =? chr "-" then (true, u)
                      else if c =? chr "+" then (false, u) else (false, t)
          | [] => (false, t)
          end in
        match span_digits t' with
        | ([], _) => None
        | (d, r) => Some (if neg then Z.opp (ascii_digits_value d) else ascii_digits_value d, r)
        end
      else None
  | [] => None
  end.

(** [_match_number]: an int when the literal has neither fraction nor
    exponent, a float otherwise. *)
Definition match_number (s : str) : res (pyval * str) :=
  let '(neg, s1) :=
    match s with
    | c :: t => if c =? chr "-" then (true, t) else (false, s)
    | [] => (false, s)
    end in
  match span_int s1 with
  | None => Raise JSONDecodeError
  | Some (ds, s2) =>
      let '(fs, s3) := span_frac s2 in
      match fs, span_exp s3 with
      | [], None =>
          if decide (int_max_str_digits < length ds)%nat then Raise ValueError
          else Ok (PInt (if neg then Z.opp (ascii_digits_value ds) else ascii_digits_value ds), s3)
      | _, None =>
          Ok (PFloat (float_of_decimal neg (ascii_digits_value (ds ++ fs)) (- Z.of_nat (length fs))), s3)
      | _, Some (e, s4) =>
          Ok (PFloat (float_of_decimal neg (ascii_digits_value (ds ++ fs)) (e - Z.of_nat (length fs))), s4)
      end
  end.

Fixpoint strip_prefix (p s : str) : option str :=
  match p, s with
  | [], _ => Some s
  | a :: p', b :: s' => if a =? b then strip_prefix p' s' else None
  | _ :: _, [] => None
  end.

(** The named constants, then a number. *)
Definition scan_atom (s : str) : res (pyval * str) :=
  match strip_prefix (txt "null") s with Some r => Ok (PNone, r) | None =>
  match strip_prefix (txt "true") s with Some r => Ok (PBool true, r) | None =>
  match strip_prefix (txt "false") s with Some r => Ok (PBool false, r) | None =>
  match strip_prefix (txt "NaN") s with Some r => Ok (PFloat S754_nan, r) | None =>
  match strip_prefix (txt "Infinity") s with Some r => Ok (PFloat (S754_infinity false), r) | None =>
  match strip_prefix (txt "-Infinity") s with Some r => Ok (PFloat (S754_infinity true), r) | None =>
  match_number s
  end end end end end end.

(** [scan_once]: one JSON term at the start of [s] (no leading blank), with
    [object_loop] from the first key of an object and [array_loop] from the
    first item of an array.  [fuel] bounds the depth of the calls; the
    amount [json_loads] gives is never used up ([json_loads_fuel]), so the
    model has no recursion limit: where CPython gives up on a text nested
    deeper than its limit (RecursionError, caught like any decoding error),
    the model decodes it. *)
Fixpoint scan_once (fuel : nat) (s : str) {struct fuel} : res (pyval * str) :=
  match fuel with
  | O => Raise RecursionError
  | S fuel' =>
      match s with
      | [] => Raise JSONDecodeError
      | c :: t =>
          if c =? quote then '(k, r) ← scanstring t; Ok (PStr k, r)
          else if c =? chr "{" then
            match skip_ws t with
            | c' :: t' => if c' =? chr "}" then Ok (PDict [], t')
                          else object_loop fuel' [] (c' :: t')
            | [] => Raise JSONDecodeError
            end
          else if c =? chr "[" then
            match skip_ws t with
            | c' :: t' => if c' =? chr "]" then Ok (PList [], t')
                          else array_loop fuel' [] (c' :: t')
            | [] => Raise JSONDecodeError
            end
          else scan_atom s
      end
  end
with object_loop (fuel : nat) (d : list (str * pyval)) (s : str) {struct fuel} : res (pyval * str) :=
  match fuel with
  | O => Raise RecursionError
  | S fuel' =>
      match s with
      | [] => Raise JSONDecodeError
      | c :: t =>
          if c =? quote then
            '(key, s1) ← scanstring t;
            match skip_ws s1 with
            | c1 :: s2 =>
                if c1 =? chr ":" then
                  '(v, s3) ← scan_once fuel' (skip_ws s2);
                  match skip_ws s3 with
                  | c3 :: s4 =>
                      if c3 =? chr "}" then Ok (PDict (dict_set key v d), s4)
                      else if c3 =? chr "," then object_loop fuel' (dict_set key v d) (skip_ws s4)
                      else Raise JSONDecodeError
                  | [] => Raise JSONDecodeError
                  end
                else Raise JSONDecodeError
            | [] => Raise JSONDecodeError
            end
          else Raise JSONDecodeError
      end
  end
with array_loop (fuel : nat) (acc : list pyval) (s : str) {struct fuel} : res (pyval * str) :=
  match fuel with
  | O => Raise RecursionError
  | S fuel' =>
      '(v, s1) ← scan_once fuel' s;
      match skip_ws s1 with
      | c :: s2 =>
          if c =? chr "]" then Ok (PList (acc ++ [v]), s2)
          else if c =? chr "," then array_loop fuel' (acc ++ [v]) (skip_ws s2)
          else Raise JSONDecodeError
      | [] => Raise JSONDecodeError
      end
  end.

(** A str that starts with the byte order mark is refused. *)
Definition starts_with_bom (s : str) : bool :=
  match s with
  | c :: _ => c =? 0xFEFF
  | [] => false
  end.

(** [json.loads(s)] of a str. *)
Definition json_loads (s : str) : res pyval :=
  if starts_with_bom s then Raise JSONDecodeError
  else
    '(v, r) ← scan_once (S (2 * length s)) (skip_ws s);
    match skip_ws r with
    | [] => Ok v
    | _ :: _ => Raise JSONDecodeError
    end.

(** ** [server.py]: the response normalizer (lines 148 to 181) *)

Record ChartResult : Type := {
  etiquetas : pyval;
  valores : pyval;
  suma_total : pyval;
  raw_response : str
}.

(** [f"Col {i+1}"] *)
Definition col_label (i : nat) : pyval := PStr (txt "Col " ++ str_of_nat (i + 1)).

(** The body of the inner [try] (lines 151 to 157). *)
Definition parse_json (response : str) : res (pyval * pyval) :=
  match re_search json_re response with
  | Some json_match =>
      data ← json_loads json_match;
      etiquetas ← py_get data (txt "etiquetas") (PList []);
      valores ← py_get data (txt "valores") (PList []);
      Ok (etiquetas, valores)
  | None => Raise ValueError
  end.

(** [float(n.replace(',', ''))] *)
Definition float_of_token (n : str) : res pyval := py_float (remove_char (chr ",") n).

(** The handler of the bare [except:] (lines 160 to 162). *)
Definition fallback (response : str) : res (pyval * pyval) :=
  let numbers := re_findall number_re response in
  valores ← mapM float_of_token (take 13 numbers);
  Ok (PList (map col_label (seq 0 13)), PList valores).

(** Lines 149 to 162: the labels and values before the cardinality is
    enforced. *)
Definition extract (response : str) : res (pyval * pyval) :=
  try_except (parse_json response) (fallback response).

(** Lines 165 to 167. *)
Definition enforce_valores (valores : pyval) : res pyval :=
  n ← py_len valores;
  valores ← (if decide (n < 13)%nat
             then py_extend valores (replicate (13 - n) (PInt 0))
             else Ok valores);
  py_slice_to 13 valores.

(** Lines 169 to 171. *)
Definition enforce_etiquetas (etiquetas : pyval) : res pyval :=
  n ← py_len etiquetas;
  etiquetas ← (if decide (n < 13)%nat
               then py_extend etiquetas (map col_label (seq n (13 - n)))
               else Ok etiquetas);
  py_slice_to 13 etiquetas.

(** Lines 164 to 181, from the extracted pair to the returned dict. *)
Definition finish (response : str) (ev : pyval * pyval) : res ChartResult :=
  valores ← enforce_valores (snd ev);
  etiquetas ← enforce_etiquetas (fst ev);
  suma_total ← py_sum valores;
  Ok {| etiquetas := etiquetas; valores := valores;
        suma_total := suma_total; raw_response := response |}.

(** The normalizer: everything [analyze_chart] does with the raw text of the
    model. *)
Definition normalize (response : str) : res ChartResult :=
  ev ← extract response; finish response ev.

(** ** [server.py]: the handlers *)

Record AnalyzeRequest : Type := { image_base64 : str }.

(** One call of the vision model.  The system message, the model name and the
    instruction text (lines 113 to 141) are constants of the source; what
    varies is the key, the session id (made of the clock) and the image. *)
Record LlmCall : Type := {
  call_api_key : str;
  call_session : Z;
  call_image : str
}.

(** What a request runs in: the environment variable, the clock, and the
    answer of the external model to a call. *)
Record World : Type := {
  OPENAI_API_KEY : option str;
  now : Z;
  send_message : LlmCall -> res str
}.

(** [except Exception as e: raise HTTPException(500, f"{prefix}{str(e)}")]:
    the last clause of [analyze_chart] and of [delete_calculation], which
    has no [except HTTPException: raise] before it. *)
Definition except_Exception {A} (prefix : string) (r : res A) : res A :=
  match r with
  | Ok a => Ok a
  | Raise e => Raise (HTTPException 500 (Formatted prefix e))
  end.

(** The call [analyze_chart] makes once it has a key (lines 110 to 143). *)
Definition llm_call (w : World) (request : AnalyzeRequest) (api_key : str) : LlmCall :=
  {| call_api_key := api_key; call_session := now w; call_image := image_base64 request |}.

(** [analyze_chart]: the response or the exception, and the calls made to the
    external model. *)
Definition analyze_chart (w : World) (request : AnalyzeRequest) : res ChartResult * list LlmCall :=
  let '(r, calls) :=
    match OPENAI_API_KEY w with
    | None | Some [] => (Raise (HTTPException 500 (Literal "API key no configurada")), [])
    | Some api_key =>
        let call := llm_call w request api_key in
        (response ← send_message w call; normalize response, [call])
    end in
  (except_Exception "Error al analizar la imagen: " r, calls).

(** [ObjectId(s)] of a str: twenty-four hexadecimal digits, InvalidId
    otherwise. *)
Definition hex_digits_value (s : str) : option N :=
  fold_left (fun acc c => a ← acc; h ← hex_value c; Some (a * 16 + h)) s (Some 0).

Definition ObjectId (s : str) : res N :=
  if decide (length s = 24%nat) then
    match hex_digits_value s with
    | Some oid => Ok oid
    | None => Raise InvalidId
    end
  else Raise InvalidId.

(** The collection of calculations: the stored documents by [_id]. *)
Definition delete_one (oid : N) (calculations : gmap N pyval) : nat * gmap N pyval :=
  match calculations !! oid with
  | Some _ => (1%nat, delete oid calculations)
  | None => (0%nat, calculations)
  end.

(** [delete_calculation]: the response or the exception, and the collection
    afterwards. *)
Definition delete_calculation (calculations : gmap N pyval) (calculation_id : str)
  : res string * gmap N pyval :=
  let '(r, calculations') :=
    match ObjectId calculation_id with
    | Raise e => (Raise e, calculations)
    | Ok oid =>
        let '(deleted_count, calculations') := delete_one oid calculations in
        if decide (deleted_count = 0%nat)
        then (Raise (HTTPException 404 (Literal "Cálculo no encontrado")), calculations')
        else (Ok "Cálculo eliminado exitosamente"%string, calculations')
    end in
  (except_Exception "Error al eliminar el cálculo: " r, calculations').

(** The status an exception reaches the client with, when it is an
    HTTPException. *)
Definition status_of (e : exn) : option Z :=
  match e with
  | HTTPException status _ => Some status
  | _ => None
  end.

(** ** [server.py]: saving a calculation (lines 186 to 210) *)

(** Exceptions of the runtime and of the database driver that the normalizer
    never meets, named by what they print. *)
Definition KeyError (key : string) : exn := ExternalError ("KeyError: " ++ key).
Definition DuplicateKeyError : exn := ExternalError "DuplicateKeyError".
Definition UnicodeEncodeError : exn := ExternalError "UnicodeEncodeError".

Module SaveCalculationRequest.
Record t : Type := {
  nombre : str;
  telefono : str;
  direccion : str;
  periodo_desde : str;
  periodo_hasta : str;
  imagen_base64 : str;
  etiquetas : list str;
  valores : list spec_float;
  total_consumo : spec_float;
  horas_sol_estandar : spec_float;
  horas_sol_calculadas : spec_float;
  factor_placas : spec_float;
  total_placas : spec_float
}.
End SaveCalculationRequest.

(** The lowercase hexadecimal digit of a value below sixteen. *)
Definition hex_digit (n : N) : char := if n <? 10 then 48 + n else 87 + n.

(** [n] modulo [16 ^ width] in [width] hexadecimal digits. *)
Fixpoint hex_of (width : nat) (n : N) : str :=
  match width with
  | O => []
  | S k => hex_of k (n / 16) ++ [hex_digit (n mod 16)]
  end.

(** [str(oid)] of an ObjectId: its twelve bytes in hexadecimal. *)
Definition str_of_oid (oid : N) : str := hex_of 24 oid.

(** The dict of lines 189 to 204; [fecha] is [datetime.now().isoformat()]. *)
Definition calculation_document (fecha : str) (request : SaveCalculationRequest.t)
  : list (str * pyval) :=
  [ (txt "nombre", PStr (SaveCalculationRequest.nombre request));
    (txt "telefono", PStr (SaveCalculationRequest.telefono request));
    (txt "direccion", PStr (SaveCalculationRequest.direccion request));
    (txt "periodo_desde", PStr (SaveCalculationRequest.periodo_desde request));
    (txt "periodo_hasta", PStr (SaveCalculationRequest.periodo_hasta request));
    (txt "fecha", PStr fecha);
    (txt "imagen_base64", PStr (SaveCalculationRequest.imagen_base64 request));
    (txt "etiquetas", PList (map PStr (SaveCalculationRequest.etiquetas request)));
    (txt "valores", PList (map PFloat (SaveCalculationRequest.valores request)));
    (txt "total_consumo", PFloat (SaveCalculationRequest.total_consumo request));
    (txt "horas_sol_estandar", PFloat (SaveCalculationRequest.horas_sol_estandar request));
    (txt "horas_sol_calculadas", PFloat (SaveCalculationRequest.horas_sol_calculadas request));
    (txt "factor_placas", PFloat (SaveCalculationRequest.factor_placas request));
    (txt "total_placas", PFloat (SaveCalculationRequest.total_placas request)) ].

(** [insert_one(doc)] for a document without [_id].  The driver either
    refuses the document or fails to reach the server ([refusal]: a document
    over the size limit of BSON, a text that UTF-8 cannot encode, a
    connection error), or it gives the document the ObjectId [new_id] it has
    just made and stores it; the collection refuses an [_id] it already
    holds.  What a failed call leaves in the collection is not the
    program's to know: no property below speaks of it. *)
Definition insert_one (refusal : option exn) (new_id : N) (doc : list (str * pyval))
    (calculations : gmap N pyval) : res N * gmap N pyval :=
  match refusal with
  | Some e => (Raise e, calculations)
  | None =>
      match calculations !! new_id with
      | Some _ => (Raise DuplicateKeyError, calculations)
      | None => (Ok new_id, <[new_id := PDict doc]> calculations)
      end
  end.

(** [save_calculation]: the message and the id, or the exception, and the
    collection afterwards. *)
Definition save_calculation (calculations : gmap N pyval) (refusal : option exn)
    (new_id : N) (fecha : str) (request : SaveCalculationRequest.t)
  : res (string * str) * gmap N pyval :=
  let calculation := calculation_document fecha request in
  let '(result, calculations') := insert_one refusal new_id calculation calculations in
  (except_Exception "Error al guardar el cálculo: "
     (inserted_id ← result;
      Ok ("Cálculo guardado exitosamente"%string, str_of_oid inserted_id)),
   calculations').

(** ** [server.py]: the WhatsApp link of calculations sent inline (lines 608 to 661) *)

(** The decimal digits of a natural number, [str(n)]. *)
Definition str_of_N (n : N) : str := str_of_uint (N.to_uint n).

(** [m * 2^e * 100] rounded to the nearest integer, ties to even. *)
Definition hundredths (m : positive) (e : Z) : N :=
  match e with
  | Zneg k =>
      let n := Npos m * 100 in
      let d := 2 ^ Npos k in
      let q := n / d in
      let r := n mod d in
      if (d <? 2 * r) || ((d =? 2 * r) && N.odd q) then q + 1 else q
  | _ => Npos m * 2 ^ Z.to_N e * 100
  end.

(** Two digits, with a leading zero when needed. *)
Definition two_digits (n : N) : str := [48 + n / 10; 48 + n mod 10].

(** [format(x, '.2f')] of a float. *)
Definition format_2f (x : spec_float) : str :=
  match x with
  | S754_nan => txt "nan"
  | S754_infinity s => (if s then txt "-" else []) ++ txt "inf"
  | S754_zero s => (if s then txt "-" else []) ++ txt "0.00"
  | S754_finite s m e =>
      let q := hundredths m e in
      (if s then txt "-" else []) ++ str_of_N (q / 100) ++ txt "." ++ two_digits (q mod 100)
  end.

(** [s.encode('utf-8')]: UnicodeEncodeError on a surrogate. *)
Definition utf8_char (c : char) : res (list N) :=
  if c <? 0x80 then Ok [c]
  else if c <? 0x800 then Ok [0xC0 + c / 64; 0x80 + c mod 64]
  else if (0xD800 <=? c) && (c <=? 0xDFFF) then Raise UnicodeEncodeError
  else if c <? 0x10000 then Ok [0xE0 + c / 4096; 0x80 + (c / 64) mod 64; 0x80 + c mod 64]
  else if c <? 0x110000 then
    Ok [0xF0 + c / 262144; 0x80 + (c / 4096) mod 64; 0x80 + (c / 64) mod 64; 0x80 + c mod 64]
  else Raise UnicodeEncodeError.

Fixpoint utf8_encode (s : str) : res (list N) :=
  match s with
  | [] => Ok []
  | c :: t => b ← utf8_char c; bs ← utf8_encode t; Ok (b ++ bs)
  end.

(** The bytes [urllib.parse.quote] leaves as they are: ASCII letters and
    digits, [_.-~], and the default [safe='/']. *)
Definition quote_safe (b : N) : bool :=
  ((65 <=? b) && (b <=? 90)) || ((97 <=? b) && (b <=? 122)) || ((48 <=? b) && (b <=? 57))
  || (b =? chr "_") || (b =? chr ".") || (b =? chr "-") || (b =? chr "~") || (b =? chr "/").

Definition upper_hex_digit (n : N) : char := if n <? 10 then 48 + n else 55 + n.

Definition quote_byte (b : N) : str :=
  if quote_safe b then [b] else [chr "%"; upper_hex_digit (b / 16); upper_hex_digit (b mod 16)].

(** [quote(s)] with the defaults: the UTF-8 bytes, percent-encoded. *)
Definition quote_url (s : str) : res str :=
  bs ← utf8_encode s; Ok (concat (map quote_byte bs)).

Module CalculoLocal.
Record t : Type := {
  id : str;
  nombre : str;
  telefono : str;
  direccion : str;
  periodo_desde : str;
  periodo_hasta : str;
  imagen_base64 : str;
  etiquetas : list str;
  valores : list spec_float;
  total_consumo : spec_float;
  horas_sol_estandar : spec_float;
  horas_sol_calculadas : spec_float;
  factor_placas : spec_float;
  total_placas : spec_float
}.
End CalculoLocal.

Module SendWhatsAppLocalRequest.
Record t : Type := {
  telefono : str;
  calculos : list CalculoLocal.t
}.
End SendWhatsAppLocalRequest.

Module WhatsAppLink.
Record t : Type := {
  whatsapp_link : str;
  telefono : str;
  calculos_incluidos : nat
}.
End WhatsAppLink.

Definition nl : str := [10].

(** The line of the value at index [i] (lines 630 to 633): its label, or
    "Mes i+1" when the labels are fewer than the values. *)
Definition value_line (etiquetas : list str) (i : nat) (valor : spec_float) : str :=
  let etiqueta := match etiquetas !! i with
                  | Some etiqueta => etiqueta
                  | None => txt "Mes " ++ str_of_nat (i + 1)
                  end in
  etiqueta ++ txt ": " ++ format_2f valor ++ txt " KWh" ++ nl.

(** The text of one calculation (lines 620 to 642). *)
Definition calculo_text (calculo : CalculoLocal.t) : str :=
  txt "*Cliente:* " ++ CalculoLocal.nombre calculo ++ nl
  ++ txt "*Telefono:* " ++ CalculoLocal.telefono calculo ++ nl
  ++ txt "*Direccion:* " ++ CalculoLocal.direccion calculo ++ nl
  ++ txt "*Periodo:* " ++ CalculoLocal.periodo_desde calculo ++ txt " hasta "
  ++ CalculoLocal.periodo_hasta calculo ++ nl ++ nl
  ++ txt "*VALORES DE CONSUMO MENSUAL:*" ++ nl
  ++ concat (imap (value_line (CalculoLocal.etiquetas calculo)) (CalculoLocal.valores calculo))
  ++ nl ++ txt "*TOTALES Y CALCULOS:*" ++ nl
  ++ txt "Total de Consumo: " ++ format_2f (CalculoLocal.total_consumo calculo) ++ txt " KWh" ++ nl
  ++ txt "Horas de Sol Estandar: " ++ format_2f (CalculoLocal.horas_sol_estandar calculo) ++ nl
  ++ txt "Horas de Sol Calculadas: " ++ format_2f (CalculoLocal.horas_sol_calculadas calculo) ++ nl
  ++ txt "Factor de Placas: " ++ format_2f (CalculoLocal.factor_placas calculo) ++ nl ++ nl
  ++ txt "*TOTAL DE PLACAS RECOMENDADAS: " ++ format_2f (CalculoLocal.total_placas calculo)
  ++ txt "*" ++ nl ++ nl
  ++ txt "*NOTA:* La imagen de la grafica esta disponible en el historial de la aplicacion."
  ++ nl ++ nl
  ++ txt "-------------------" ++ nl ++ nl.

(** [mensaje] after the loop over the calculations. *)
Definition whatsapp_message (calculos : list CalculoLocal.t) : str :=
  txt "*CALCULO DE PLACAS SOLARES*" ++ nl ++ nl ++ concat (map calculo_text calculos).

(** [telefono.replace("+", "").replace(" ", "").replace("-", "")] *)
Definition clean_phone (telefono : str) : str :=
  remove_char (chr "-") (remove_char (chr " ") (remove_char (chr "+") telefono)).

(** [except HTTPException: raise] before [except Exception as e: raise
    HTTPException(500, f"{prefix}{str(e)}")]: the clauses of the email and
    WhatsApp handlers. *)
Definition except_HTTPException_raise {A} (prefix : string) (r : res A) : res A :=
  match r with
  | Ok a => Ok a
  | Raise (HTTPException status detail) => Raise (HTTPException status detail)
  | Raise e => Raise (HTTPException 500 (Formatted prefix e))
  end.

(** [generar_whatsapp_link_local]. *)
Definition generar_whatsapp_link_local (request : SendWhatsAppLocalRequest.t)
  : res WhatsAppLink.t :=
  except_HTTPException_raise "Error al generar enlace de WhatsApp: "
    (let calculos := SendWhatsAppLocalRequest.calculos request in
     match calculos with
     | [] => Raise (HTTPException 404 (Literal "No se encontraron cálculos"))
     | _ :: _ =>
         let mensaje := whatsapp_message calculos in
         let telefono_limpio := clean_phone (SendWhatsAppLocalRequest.telefono request) in
         mensaje_encoded ← quote_url mensaje;
         Ok {| WhatsAppLink.whatsapp_link :=
                 txt "https://wa.me/" ++ telefono_limpio ++ txt "?text=" ++ mensaje_encoded;
               WhatsAppLink.telefono := telefono_limpio;
               WhatsAppLink.calculos_incluidos := length calculos |}
     end).

(** ** [server.py]: listing the calculations (lines 212 to 250) *)

(** The two queries [get_calculations] builds: [{}], and the case-insensitive
    search of a pattern in "nombre" or "telefono". *)
Inductive query : Type :=
| QueryAll
| QueryNameOrPhone (pattern : str).

(** Lines 218 to 225; [if search:] takes the empty string as no search. *)
Definition build_query (search : option str) : query :=
  match search with
  | None | Some [] => QueryAll
  | Some pattern => QueryNameOrPhone pattern
  end.

(** [doc[key]]: KeyError when the key is missing. *)
Definition subscript (doc : list (str * pyval)) (key : string) : res pyval :=
  match dict_lookup (txt key) doc with
  | Some v => Ok v
  | None => Raise (KeyError key)
  end.

(** [doc.get(key, default)] on a dict. *)
Definition get_or (doc : list (str * pyval)) (key : string) (dflt : pyval) : pyval :=
  default dflt (dict_lookup (txt key) doc).

(** The dict appended for one document of the cursor (lines 230 to 246); a
    document is its [_id] and its other fields. *)
Definition listing_row (doc : N * list (str * pyval)) : res (list (str * pyval)) :=
  let '(oid, d) := doc in
  nombre ← subscript d "nombre";
  telefono ← subscript d "telefono";
  direccion ← subscript d "direccion";
  fecha ← subscript d "fecha";
  total_consumo ← subscript d "total_consumo";
  horas_sol_estandar ← subscript d "horas_sol_estandar";
  horas_sol_calculadas ← subscript d "horas_sol_calculadas";
  factor_placas ← subscript d "factor_placas";
  total_placas ← subscript d "total_placas";
  Ok [ (txt "id", PStr (str_of_oid oid));
       (txt "nombre", nombre);
       (txt "telefono", telefono);
       (txt "direccion", direccion);
       (txt "periodo_desde", get_or d "periodo_desde" (PStr []));
       (txt "periodo_hasta", get_or d "periodo_hasta" (PStr []));
       (txt "fecha", fecha);
       (txt "imagen_base64", get_or d "imagen_base64" (PStr []));
       (txt "etiquetas", get_or d "etiquetas" (PList []));
       (txt "valores", get_or d "valores" (PList []));
       (txt "total_consumo", total_consumo);
       (txt "horas_sol_estandar", horas_sol_estandar);
       (txt "horas_sol_calculadas", horas_sol_calculadas);
       (txt "factor_placas", factor_placas);
       (txt "total_placas", total_placas) ].

(** [get_calculations]; [find] is the collection's
    [find(query).sort("fecha", -1).limit(50)], the documents it yields in
    order or the driver's exception. *)
Definition get_calculations (find : query -> res (list (N * list (str * pyval))))
    (search : option str) : res (list (list (str * pyval))) :=
  except_Exception "Error al obtener el historial: "
    (cursor ← find (build_query search); mapM listing_row cursor).

(** ** [server.py]: the calculations named by a request (lines 270 to 278
    and 415 to 423) *)

(** The loop that looks up every id of the request, in order, appending
    to [calculos]: an id that names no document is passed over, an id that
    is no ObjectId raises.  A document found is never empty (it has its
    [_id]), so [if calculo:] only tests that one was found. *)
Fixpoint find_calculos (calculations : gmap N pyval) (calculo_ids : list str)
    (calculos : list pyval) : res (list pyval) :=
  match calculo_ids with
  | [] => Ok calculos
  | calculo_id :: calculo_ids =>
      oid ← ObjectId calculo_id;
      find_calculos calculations calculo_ids
        (match calculations !! oid with
         | Some calculo => calculos ++ [calculo]
         | None => calculos
         end)
  end.

(** The frame [send_email] and [generar_whatsapp_link] share: the lookup of
    the ids, the 404 when nothing was found, and the two [except] clauses
    around the rest of the handler, [render], which gets the documents
    found. *)
Definition with_stored_calculos {A} (prefix : string) (render : list pyval -> res A)
    (calculations : gmap N pyval) (calculo_ids : list str) : res A :=
  except_HTTPException_raise prefix
    (calculos ← find_calculos calculations calculo_ids [];
     match calculos with
     | [] => Raise (HTTPException 404 (Literal "No se encontraron cálculos"))
     | _ :: _ => render calculos
     end).

(** * Vocabulary of the properties *)

(** A continuation of the matcher is sound for [P] when what it matches is a
    prefix of its input made of characters in [P]. *)
Definition sound (P : char -> Prop) (f : str -> option (str * str)) : Prop :=
  forall s m rest, f s = Some (m, rest) -> s = m ++ rest /\ Forall P m.

(** What lines 165 to 171 make of a list of values and of a list of labels. *)
Definition pad_values (vs : list pyval) : list pyval :=
  take 13 (vs ++ replicate (13 - length vs) (PInt 0)).

Definition pad_labels (ls : list pyval) : list pyval :=
  take 13 (ls ++ map col_label (seq (length ls) (13 - length ls))).

(** The value of a key of the parsed object, the empty list when the object
    has no such key: [data.get(key, [])]. *)
Definition field (key : string) (d : list (str * pyval)) : pyval :=
  default (PList []) (dict_lookup (txt key) d).

(** The characters of a number-like token: decimal digits and commas. *)
Definition token_char (c : char) : Prop := is_decimal c = true \/ c = chr ",".

Definition is_float (v : pyval) : Prop :=
  match v with PFloat _ => True | _ => False end.

(** A JSON-shaped region: an opening brace, one or more characters that are
    not a closing brace, a closing brace. *)
Definition region (body : str) : str := chr "{" :: body ++ [chr "}"].

Definition json_shaped (s : str) : Prop :=
  exists pre body post,
    s = pre ++ region body ++ post /\ body <> [] /\ (chr "}" ∉ body).

(** The end of [json_re]: the closing brace. *)
Definition closing : str -> option (str * str) :=
  one (Chr (chr "}")) (fun s => Some ([], s)).

(** The labels, values and total of a response, without the echoed text. *)
Definition chart_data (r : ChartResult) : pyval * pyval * pyval :=
  (etiquetas r, valores r, suma_total r).

Definition outcome (response : str) : res (pyval * pyval * pyval) :=
  r ← normalize response; Ok (chart_data r).

(** Python's [==] between an int and a float: equality of the numbers. *)
Definition int_eq_float (z : Z) (f : spec_float) : bool :=
  match f with
  | S754_zero _ => (z =? 0)%Z
  | S754_finite s m e =>
      if (0 <=? e)%Z then (z =? cond_Zopp s (Zpos m) * 2 ^ e)%Z
      else (z * 2 ^ (- e) =? cond_Zopp s (Zpos m))%Z
  | _ => false
  end.

(** ** Vocabulary of the fallback, after the words of the specification *)

(** A token ends where the text ends, or before a character that is neither
    a digit nor a comma. *)
Definition ends_token (rest : str) : Prop :=
  match rest with
  | [] => True
  | c :: _ => ~ token_char c
  end.

(** The number-like tokens of a text, in reading order: the text is a
    stretch without any digit, then a token, and so on; a token starts with
    a digit and goes on with digits and commas as far as they go. *)
Inductive number_tokens : str -> list str -> Prop :=
| tokens_none (gap : str) :
    Forall (fun c => is_decimal c = false) gap ->
    number_tokens gap []
| tokens_next (gap : str) (d : char) (more rest : str) (tokens : list str) :
    Forall (fun c => is_decimal c = false) gap ->
    is_decimal d = true ->
    Forall token_char more ->
    ends_token rest ->
    number_tokens rest tokens ->
    number_tokens (gap ++ (d :: more) ++ rest) ((d :: more) :: tokens).

(** The number a token stands for: its digits read in base ten, the commas
    left out. *)
Definition token_number (token : str) : Z :=
  fold_left (fun acc c => match decimal_value c with
                          | Some d => (10 * acc + Z.of_N d)%Z
                          | None => acc
                          end) token 0%Z.

(** The binary64 nearest to an integer, ties to even. *)
Definition nearest_float (z : Z) : spec_float := binary_normalize 53 1024 z 0 false.

Definition token_float (token : str) : pyval := PFloat (nearest_float (token_number token)).

Definition synthetic_labels : pyval :=
  PList (map (fun s => PStr (txt s))
           ["Col 1"; "Col 2"; "Col 3"; "Col 4"; "Col 5"; "Col 6"; "Col 7";
            "Col 8"; "Col 9"; "Col 10"; "Col 11"; "Col 12"; "Col 13"]%string).

(** 1680.0, 930.0 and 2610.0 as binary64: mantissa and exponent. *)
Definition float_1680 : spec_float := S754_finite false 7388718138654720 (-42).
Definition float_930 : spec_float := S754_finite false 8180366510653440 (-43).
Definition float_2610 : spec_float := S754_finite false 5739450696990720 (-41).

(** The blanks [bytes.fromhex] passes over. *)
Definition is_blank (c : char) : bool := (c =? 32) || ((9 <=? c) && (c <=? 13)).

(** An identifier that cannot be an ObjectId: it is not twenty-four
    characters long, or one of its characters is neither a hexadecimal digit
    nor a blank. *)
Definition malformed (calculation_id : str) : Prop :=
  length calculation_id <> 24%nat
  \/ Exists (fun c => hex_value c = None /\ is_blank c = false) calculation_id.

(** 12.0 and 2622.0 as binary64. *)
Definition float_12 : spec_float := S754_finite false 6755399441055744 (-49).
Definition float_2622 : spec_float := S754_finite false 5765838976057344 (-41).

(** ** Inputs of the examples *)

Definition world_answering (key : str) (clock : Z) (response : str) : World :=
  {| OPENAI_API_KEY := Some key; now := clock; send_message := fun _ => Ok response |}.

Definition raw_scalar : str := txt "{'valores': 5}".

Definition raw_no_json : str := txt "no JSON here but 1,680 and 930 appear".

Definition raw_two_entries : str := txt "{'etiquetas': ['Ene','Feb'], 'valores': [100, 200]}".

Definition raw_fourteen : str :=
  txt "{'etiquetas': ['a','b','c','d','e','f','g','h','i','j','k','l','m','n'], 'valores': [1,2,3,4,5,6,7,8,9,10,11,12,13,14]}".

Definition labels_fourteen : list pyval :=
  map (fun s => PStr (txt s))
      ["a"; "b"; "c"; "d"; "e"; "f"; "g"; "h"; "i"; "j"; "k"; "l"; "m"; "n"]%string.

Definition values_fourteen : list pyval :=
  map PInt [1; 2; 3; 4; 5; 6; 7; 8; 9; 10; 11; 12; 13; 14]%Z.

Definition raw_brace_label : str :=
  txt "{'etiquetas': ['}','b','c','d','e','f','g','h','i','j','k','l','m'], 'valores': [1,2,3,4,5,6,7,8,9,10,11,12,13]}".

Definition labels_brace : list pyval :=
  map (fun s => PStr (txt s))
      ["}"; "b"; "c"; "d"; "e"; "f"; "g"; "h"; "i"; "j"; "k"; "l"; "m"]%string.

Definition values_thirteen : list pyval :=
  map PInt [1; 2; 3; 4; 5; 6; 7; 8; 9; 10; 11; 12; 13]%Z.

Definition raw_text_values : str :=
  txt "{'etiquetas': ['a','b','c','d','e','f','g','h','i','j','k','l','m'], 'valores': ['1','2','3','4','5','6','7','8','9','10','11','12','13']}".

Definition values_text : list pyval :=
  map (fun s => PStr (txt s))
      ["1"; "2"; "3"; "4"; "5"; "6"; "7"; "8"; "9"; "10"; "11"; "12"; "13"]%string.

Definition result_fourteen : ChartResult :=
  {| etiquetas := PList (take 13 labels_fourteen);
     valores := PList (take 13 values_fourteen);
     suma_total := PInt 91; raw_response := raw_fourteen |}.

Definition world_without_key : World :=
  {| OPENAI_API_KEY := None; now := 0; send_message := fun _ => Ok raw_two_entries |}.

Definition raw_later_five : str := txt "{x} {'valores': [5]}".
Definition raw_later_seven : str := txt "{x} {'valores': [7]}".

Definition raw_two_regions : str := txt "{'valores': [5]} then {'valores': [7]}".
Definition raw_one_region : str := txt "see {'valores': [5]} and 9, 10".

Definition raw_no_valores : str := txt "{'etiquetas': ['Ene']} 1,680 and 930".
Definition raw_no_etiquetas : str := txt "{'valores': [100, 200]} Ene Feb".

Definition one_calculation : gmap N pyval := {[ 1 := PDict [(txt "nombre", PStr (txt "Ana"))] ]}.

Definition missing_id : str := txt "000000000000000000000002".

Definition stored_id : str := txt "000000000000000000000001".

Definition raw_bad_json : str := txt "{'valores': [1,680, 930,]} and 12".

Definition request_ana : SaveCalculationRequest.t :=
  {| SaveCalculationRequest.nombre := txt "Ana";
     SaveCalculationRequest.telefono := txt "+34 600-123-456";
     SaveCalculationRequest.direccion := txt "Calle Mayor 1";
     SaveCalculationRequest.periodo_desde := txt "2024-01";
     SaveCalculationRequest.periodo_hasta := txt "2025-01";
     SaveCalculationRequest.imagen_base64 := txt "iVBORw0KGgo=";
     SaveCalculationRequest.etiquetas := [txt "Ene"; txt "Feb"];
     SaveCalculationRequest.valores :=
       [float_of_decimal false 1680 0; float_of_decimal false 930 0];
     SaveCalculationRequest.total_consumo := float_of_decimal false 2610 0;
     SaveCalculationRequest.horas_sol_estandar := float_of_decimal false 45 (-1);
     SaveCalculationRequest.horas_sol_calculadas := float_of_decimal false 5 0;
     SaveCalculationRequest.factor_placas := float_of_decimal false 55 (-2);
     SaveCalculationRequest.total_placas := float_of_decimal false 12 0 |}.

Definition fecha_example : str := txt "2024-05-17T10:30:00.123456".

(** ** Vocabulary and inputs of the properties of the WhatsApp link *)

(** A Unicode scalar value: a code point that is not a surrogate. *)
Definition scalar (c : char) : bool := (c <? 0xD800) || ((0xDFFF <? c) && (c <? 0x110000)).

Definition text_ok (s : str) : Prop := Forall (fun c => scalar c = true) s.

(** The texts of a calculation that go into the message. *)
Definition calculo_ok (calculo : CalculoLocal.t) : Prop :=
  text_ok (CalculoLocal.nombre calculo)
  /\ text_ok (CalculoLocal.telefono calculo)
  /\ text_ok (CalculoLocal.direccion calculo)
  /\ text_ok (CalculoLocal.periodo_desde calculo)
  /\ text_ok (CalculoLocal.periodo_hasta calculo)
  /\ Forall text_ok (CalculoLocal.etiquetas calculo).

(** The characters of a percent-encoded text. *)
Definition url_char (c : char) : Prop := quote_safe c = true \/ c = chr "%".

Definition calculo_ana : CalculoLocal.t :=
  {| CalculoLocal.id := txt "local-1";
     CalculoLocal.nombre := txt "Ana";
     CalculoLocal.telefono := txt "600 123 456";
     CalculoLocal.direccion := txt "Calle Mayor 1";
     CalculoLocal.periodo_desde := txt "2024-01";
     CalculoLocal.periodo_hasta := txt "2025-01";
     CalculoLocal.imagen_base64 := [];
     CalculoLocal.etiquetas := [txt "Ene"];
     CalculoLocal.valores := [float_of_decimal false 1680 0; float_of_decimal false 9305 (-1)];
     CalculoLocal.total_consumo := float_of_decimal false 26105 (-1);
     CalculoLocal.horas_sol_estandar := float_of_decimal false 45 (-1);
     CalculoLocal.horas_sol_calculadas := float_of_decimal false 5 0;
     CalculoLocal.factor_placas := float_of_decimal false 55 (-2);
     CalculoLocal.total_placas := float_of_decimal false 12 0 |}.

Definition request_whatsapp_ana : SendWhatsAppLocalRequest.t :=
  {| SendWhatsAppLocalRequest.telefono := txt "+34 600-123-456";
     SendWhatsAppLocalRequest.calculos := [calculo_ana] |}.

Definition request_whatsapp_empty : SendWhatsAppLocalRequest.t :=
  {| SendWhatsAppLocalRequest.telefono := txt "+34 600-123-456";
     SendWhatsAppLocalRequest.calculos := [] |}.

Definition calculo_surrogate : CalculoLocal.t :=
  {| CalculoLocal.id := txt "local-2";
     CalculoLocal.nombre := txt "Ana " ++ [0xD83D];
     CalculoLocal.telefono := txt "600 123 456";
     CalculoLocal.direccion := txt "Calle Mayor 1";
     CalculoLocal.periodo_desde := txt "2024-01";
     CalculoLocal.periodo_hasta := txt "2025-01";
     CalculoLocal.imagen_base64 := [];
     CalculoLocal.etiquetas := [];
     CalculoLocal.valores := [];
     CalculoLocal.total_consumo := S754_zero false;
     CalculoLocal.horas_sol_estandar := S754_zero false;
     CalculoLocal.horas_sol_calculadas := S754_zero false;
     CalculoLocal.factor_placas := S754_zero false;
     CalculoLocal.total_placas := S754_zero false |}.

(** ** Vocabulary and inputs of the properties of the listing *)

(** The keys [get_calculations] reads with [doc[key]]. *)
Definition required_keys : list string :=
  ["nombre"; "telefono"; "direccion"; "fecha"; "total_consumo"; "horas_sol_estandar";
   "horas_sol_calculadas"; "factor_placas"; "total_placas"]%string.

(** The keys it reads with [doc.get(key, default)], with their defaults. *)
Definition optional_keys : list (string * pyval) :=
  [("periodo_desde", PStr []); ("periodo_hasta", PStr []); ("imagen_base64", PStr []);
   ("etiquetas", PList []); ("valores", PList [])]%string.

Definition complete (doc : N * list (str * pyval)) : Prop :=
  Forall (fun key => dict_lookup (txt key) (snd doc) <> None) required_keys.

(** The row of a document: its fields under the same keys, the defaults for
    the optional keys it lacks, and the text of its id. *)
Definition row_of (doc : N * list (str * pyval)) (row : list (str * pyval)) : Prop :=
  dict_lookup (txt "id") row = Some (PStr (str_of_oid (fst doc)))
  /\ Forall (fun key => dict_lookup (txt key) row = dict_lookup (txt key) (snd doc)) required_keys
  /\ Forall (fun kd => dict_lookup (txt (fst kd)) row = Some (get_or (snd doc) (fst kd) (snd kd)))
            optional_keys.

Definition document_without_fecha : N * list (str * pyval) :=
  (7, [(txt "nombre", PStr (txt "Luis")); (txt "telefono", PStr (txt "611"));
       (txt "direccion", PStr (txt "Plaza 2"))]).

Definition find_example (q : query) : res (list (N * list (str * pyval))) :=
  Ok [(2, calculation_document fecha_example request_ana); document_without_fecha].

Definition find_saved (q : query) : res (list (N * list (str * pyval))) :=
  Ok [(2, calculation_document fecha_example request_ana)].

(** A document as [save_calculation] writes it, with the id the driver
    gave it, and the row the listing is expected to show for it. *)
Definition saved_document (s : N * str * SaveCalculationRequest.t)
  : N * list (str * pyval) :=
  let '(oid, fecha, request) := s in (oid, calculation_document fecha request).

Definition saved_row (s : N * str * SaveCalculationRequest.t) : list (str * pyval) :=
  let '(oid, fecha, request) := s in
  (txt "id", PStr (str_of_oid oid)) :: calculation_document fecha request.

(** * Properties of the normalizer *)

(** ** Cardinality enforcement on lists *)

Lemma enforce_valores_list (vs : list pyval) :
  enforce_valores (PList vs) = Ok (PList (pad_values vs)).
Proof.
  unfold enforce_valores, pad_values; simpl.
  case_decide; simpl; [reflexivity|].
  replace (13 - length vs)%nat with 0%nat by lia.
  simpl. by rewrite app_nil_r.
Qed.

Lemma enforce_etiquetas_list (ls : list pyval) :
  enforce_etiquetas (PList ls) = Ok (PList (pad_labels ls)).
Proof.
  unfold enforce_etiquetas, pad_labels; simpl.
  case_decide; simpl; [reflexivity|].
  replace (13 - length ls)%nat with 0%nat by lia.
  simpl. by rewrite app_nil_r.
Qed.

Lemma length_pad_values (vs : list pyval) : length (pad_values vs) = 13%nat.
Proof.
  unfold pad_values. rewrite length_take, length_app, length_replicate. lia.
Qed.

Lemma length_pad_labels (ls : list pyval) : length (pad_labels ls) = 13%nat.
Proof.
  unfold pad_labels. rewrite length_take, length_app, length_map, length_seq. lia.
Qed.

Lemma pad_values_long (vs : list pyval) :
  (13 <= length vs)%nat -> pad_values vs = take 13 vs.
Proof.
  intros H. unfold pad_values. by rewrite take_app_le.
Qed.

Lemma pad_labels_long (ls : list pyval) :
  (13 <= length ls)%nat -> pad_labels ls = take 13 ls.
Proof.
  intros H. unfold pad_labels. by rewrite take_app_le.
Qed.

Lemma pad_values_short (vs : list pyval) :
  (length vs <= 13)%nat -> pad_values vs = vs ++ replicate (13 - length vs) (PInt 0).
Proof.
  intros H. unfold pad_values. apply take_ge.
  rewrite length_app, length_replicate. lia.
Qed.

Lemma pad_labels_short (ls : list pyval) :
  (length ls <= 13)%nat ->
  pad_labels ls = ls ++ map col_label (seq (length ls) (13 - length ls)).
Proof.
  intros H. unfold pad_labels. apply take_ge.
  rewrite length_app, length_map, length_seq. lia.
Qed.

(** After the extraction, two lists go through the rest of the handler
    whenever [sum] accepts the padded values. *)
Lemma finish_lists (response : str) (ls vs : list pyval) :
  finish response (PList ls, PList vs) =
  total ← py_sum (PList (pad_values vs));
  Ok {| etiquetas := PList (pad_labels ls); valores := PList (pad_values vs);
        suma_total := total; raw_response := response |}.
Proof.
  unfold finish. cbn [fst snd].
  rewrite enforce_valores_list, enforce_etiquetas_list. reflexivity.
Qed.

(** ** The two paths of the extraction *)

Lemma extract_json_path (response json_match : str) (d : list (str * pyval)) :
  re_search json_re response = Some json_match ->
  json_loads json_match = Ok (PDict d) ->
  extract response = Ok (field "etiquetas" d, field "valores" d).
Proof.
  intros Hs Hj. unfold extract, parse_json. rewrite Hs, Hj. reflexivity.
Qed.

Lemma normalize_json_path (response json_match : str) (d : list (str * pyval)) :
  re_search json_re response = Some json_match ->
  json_loads json_match = Ok (PDict d) ->
  normalize response = finish response (field "etiquetas" d, field "valores" d).
Proof.
  intros Hs Hj. unfold normalize.
  by rewrite (extract_json_path _ _ _ Hs Hj).
Qed.

Lemma extract_no_match (response : str) :
  re_search json_re response = None -> extract response = fallback response.
Proof.
  intros Hs. unfold extract, parse_json. rewrite Hs. reflexivity.
Qed.

Lemma extract_bad_json (response json_match : str) (e : exn) :
  re_search json_re response = Some json_match ->
  json_loads json_match = Raise e ->
  extract response = fallback response.
Proof.
  intros Hs Hj. unfold extract, parse_json. rewrite Hs, Hj. reflexivity.
Qed.

(** ** The matcher *)

Section Matcher.
Variable P : char -> Prop.

Lemma consume_sound (c : char) (f : str -> option (str * str)) (t m rest : str) :
  sound P f -> P c -> consume c (f t) = Some (m, rest) ->
  c :: t = m ++ rest /\ Forall P m.
Proof.
  intros Hf Hc. destruct (f t) as [[m' r']|] eqn:E; simpl; [|done].
  intros [= <- <-]. destruct (Hf _ _ _ E) as [-> Hm]. by split; [|constructor].
Qed.

Lemma one_sound (k : cclass) (f : str -> option (str * str)) :
  (forall c, in_class k c = true -> P c) -> sound P f -> sound P (one k f).
Proof.
  intros Hk Hf [|c t] m rest; simpl; [done|].
  destruct (in_class k c) eqn:E; [|done].
  apply consume_sound; auto.
Qed.

Lemma greedy_sound (k : cclass) (f : str -> option (str * str)) :
  (forall c, in_class k c = true -> P c) -> sound P f -> sound P (greedy k f).
Proof.
  intros Hk Hf s. induction s as [|c t IH]; intros m rest; simpl.
  - apply Hf.
  - destruct (in_class k c) eqn:E; [|apply Hf].
    destruct (greedy k f t) as [[m' r']|] eqn:G; [|apply Hf].
    intros [= <- <-]. destruct (IH _ _ eq_refl) as [-> Hm].
    split; [done|]. constructor; auto.
Qed.

Lemma match_here_sound (r : regex) :
  Forall (fun kq => forall c, in_class (fst kq) c = true -> P c) r ->
  sound P (match_here r).
Proof.
  induction r as [|[k q] r IH]; intros Hr.
  - intros s m rest [= <- <-]. by split; [|constructor].
  - inversion Hr as [|? ? Hk Hr']; subst. simpl in Hk.
    specialize (IH Hr'). destruct q; simpl.
    + by apply one_sound.
    + by apply one_sound, greedy_sound.
    + by apply greedy_sound.
Qed.

End Matcher.

(** ** The sum of the fallback's values *)

(** [sum] accepts floats mixed with the int 0 of the padding. *)
Lemma sum_from_floats (acc : pyval) (l : list pyval) :
  acc = PInt 0 \/ is_float acc ->
  Forall (fun v => is_float v \/ v = PInt 0) l ->
  exists total, sum_from acc l = Ok total.
Proof.
  intros Hacc Hl. revert acc Hacc.
  induction Hl as [|v l Hv _ IH]; intros acc Hacc; simpl; [eauto|].
  destruct Hacc as [->|Ha], Hv as [Hv| ->].
  - destruct v; try done. simpl. apply IH. by right.
  - simpl. apply IH. by left.
  - destruct acc, v; try done. simpl. apply IH. by right.
  - destruct acc; try done. simpl. apply IH. by right.
Qed.

(** ** The JSON search *)

Lemma match_json_unfold (s : str) :
  match_here json_re s =
  match s with
  | c :: c2 :: t =>
      if (c =? chr "{") && negb (c2 =? chr "}")
      then consume c (consume c2 (greedy (NotChr (chr "}")) closing t))
      else None
  | _ => None
  end.
Proof.
  destruct s as [|c [|c2 t]]; cbn -[N.eqb chr greedy]; try reflexivity.
  - by destruct (c =? chr "{").
  - destruct (c =? chr "{"); [|reflexivity].
    by destruct (c2 =? chr "}").
Qed.

Lemma closing_brace (post : str) : closing (chr "}" :: post) = Some ([chr "}"], post).
Proof. reflexivity. Qed.

Lemma closing_other (c : char) (t : str) : c <> chr "}" -> closing (c :: t) = None.
Proof.
  intros Hc. unfold closing, one. cbn [in_class].
  by destruct (N.eqb_spec c (chr "}")).
Qed.

Lemma greedy_body_complete (body post : str) :
  chr "}" ∉ body ->
  greedy (NotChr (chr "}")) closing (body ++ chr "}" :: post)
  = Some (body ++ [chr "}"], post).
Proof.
  induction body as [|c body IH]; intros Hb.
  - reflexivity.
  - apply not_elem_of_cons in Hb as [Hc Hb]. cbn [app greedy in_class].
    rewrite IH by done.
    destruct (N.eqb_spec c (chr "}")) as [->|_]; [done | reflexivity].
Qed.

Lemma greedy_body_sound (s m rest : str) :
  greedy (NotChr (chr "}")) closing s = Some (m, rest) ->
  exists body, m = body ++ [chr "}"] /\ (chr "}" ∉ body) /\ s = m ++ rest.
Proof.
  revert m rest. induction s as [|c t IH]; intros m rest; [done|].
  cbn [greedy in_class].
  destruct (N.eqb_spec c (chr "}")) as [->|Hc]; cbn [negb].
  - rewrite closing_brace. intros [= <- <-].
    exists []. split; [done|]. split; [apply not_elem_of_nil | done].
  - destruct (greedy _ _ t) as [[m' r']|] eqn:G.
    + intros [= <- <-]. destruct (IH _ _ eq_refl) as (body & -> & Hb & ->).
      exists (c :: body). split; [done|]. split; [|done].
      apply not_elem_of_cons. by split; [apply not_eq_sym|].
    + by rewrite closing_other.
Qed.

Lemma match_json_complete (body post : str) :
  body <> [] -> chr "}" ∉ body ->
  match_here json_re (region body ++ post) = Some (region body, post).
Proof.
  intros Hne Hb. destruct body as [|c body]; [done|].
  apply not_elem_of_cons in Hb as [Hc Hb].
  rewrite match_json_unfold. unfold region. cbn [app].
  rewrite N.eqb_refl.
  destruct (N.eqb_spec c (chr "}")) as [->|_]; [done|]. cbn [negb andb].
  rewrite <- app_assoc. cbn [app].
  by rewrite greedy_body_complete.
Qed.

Lemma match_json_sound (s m rest : str) :
  match_here json_re s = Some (m, rest) ->
  exists body, m = region body /\ body <> [] /\ (chr "}" ∉ body) /\ s = m ++ rest.
Proof.
  rewrite match_json_unfold.
  destruct s as [|c [|c2 t]]; [done..|].
  destruct (N.eqb_spec c (chr "{")) as [->|_]; [|done].
  destruct (N.eqb_spec c2 (chr "}")) as [->|Hc2]; [done|]. cbn [negb andb].
  destruct (greedy _ _ t) as [[m2 r2]|] eqn:G; [|done]. cbn [consume].
  intros [= <- <-]. apply greedy_body_sound in G as (body & -> & Hb & ->).
  exists (c2 :: body). split; [done|]. split; [done|]. split.
  - apply not_elem_of_cons. by split; [apply not_eq_sym|].
  - unfold region. cbn [app]. by rewrite <- !app_assoc.
Qed.

Lemma re_search_unfold (r : regex) (s : str) :
  re_search r s =
  match match_here r s with
  | Some (m, _) => Some m
  | None => match s with [] => None | _ :: t => re_search r t end
  end.
Proof. by destruct s. Qed.

(** [re.search] returns the first region: text before it that holds no
    opening brace, and whatever follows, change nothing. *)
Lemma re_search_first_region (pre body post : str) :
  chr "{" ∉ pre -> body <> [] -> chr "}" ∉ body ->
  re_search json_re (pre ++ region body ++ post) = Some (region body).
Proof.
  intros Hpre Hne Hb. induction pre as [|c pre IH].
  - cbn [app]. by rewrite re_search_unfold, match_json_complete.
  - apply not_elem_of_cons in Hpre as [Hc Hpre].
    cbn [app re_search].
    assert (match_here json_re (c :: pre ++ region body ++ post) = None) as ->.
    { rewrite match_json_unfold. destruct (pre ++ region body ++ post); [done|].
      by destruct (N.eqb_spec c (chr "{")) as [->|_]. }
    by apply IH.
Qed.

Lemma re_search_Some (s m : str) :
  re_search json_re s = Some m ->
  exists pre body post,
    s = pre ++ m ++ post /\ m = region body /\ body <> [] /\ (chr "}" ∉ body).
Proof.
  induction s as [|c t IH]; cbn [re_search].
  - destruct (match_here json_re []) as [[m' r]|] eqn:E; [|done].
    apply match_json_sound in E as (body & -> & _ & _ & E). done.
  - destruct (match_here json_re (c :: t)) as [[m' r]|] eqn:E.
    + intros [= <-]. apply match_json_sound in E as (body & -> & Hne & Hb & ->).
      by exists [], body, r.
    + intros H. destruct (IH H) as (pre & body & post & -> & -> & Hne & Hb).
      by exists (c :: pre), body, post.
Qed.

(** The search fails exactly on the texts that hold no JSON-shaped region. *)
Lemma re_search_None (s : str) :
  re_search json_re s = None <-> ~ json_shaped s.
Proof.
  split.
  - intros Hs (pre & body & post & -> & Hne & Hb). revert Hs.
    induction pre as [|c pre IH]; cbn [app].
    + by rewrite re_search_unfold, match_json_complete.
    + cbn [re_search]. destruct (match_here json_re _) as [[? ?]|]; [done | exact IH].
  - intros Hs. destruct (re_search json_re s) as [m|] eqn:E; [|done].
    exfalso. apply Hs. apply re_search_Some in E as (pre & body & post & -> & -> & Hne & Hb).
    by exists pre, body, post.
Qed.

(** ** What a successful run returns *)

Lemma enforce_valores_len (v v' : pyval) :
  enforce_valores v = Ok v' -> py_len v' = Ok 13%nat.
Proof.
  unfold enforce_valores.
  destruct v as [| | | |s|l|d]; simpl; try done; case_decide; simpl; try done.
  - intros [= <-]. simpl. rewrite length_take. f_equal. lia.
  - intros [= <-]. simpl. rewrite length_take, length_app, length_replicate. f_equal. lia.
  - intros [= <-]. simpl. rewrite length_take. f_equal. lia.
Qed.

Lemma enforce_etiquetas_len (v v' : pyval) :
  enforce_etiquetas v = Ok v' -> py_len v' = Ok 13%nat.
Proof.
  unfold enforce_etiquetas.
  destruct v as [| | | |s|l|d]; simpl; try done; case_decide; simpl; try done.
  - intros [= <-]. simpl. rewrite length_take. f_equal. lia.
  - intros [= <-]. simpl. rewrite length_take, length_app, length_map, length_seq. f_equal. lia.
  - intros [= <-]. simpl. rewrite length_take. f_equal. lia.
Qed.

Lemma finish_Ok (response : str) (ev : pyval * pyval) (r : ChartResult) :
  finish response ev = Ok r ->
  enforce_valores (snd ev) = Ok (valores r)
  /\ enforce_etiquetas (fst ev) = Ok (etiquetas r)
  /\ py_sum (valores r) = Ok (suma_total r)
  /\ raw_response r = response.
Proof.
  unfold finish.
  destruct (enforce_valores (snd ev)) as [v|]; simpl; [|done].
  destruct (enforce_etiquetas (fst ev)) as [e|]; simpl; [|done].
  destruct (py_sum v) as [t|] eqn:E; simpl; [|done].
  intros [= <-]. simpl. by rewrite E.
Qed.

Lemma normalize_Ok (response : str) (r : ChartResult) :
  normalize response = Ok r ->
  exists ev, extract response = Ok ev /\ finish response ev = Ok r.
Proof.
  unfold normalize. destruct (extract response) as [ev|]; simpl; [|done]. eauto.
Qed.

(** The part of [finish] that does not depend on the echoed text. *)
Lemma finish_outcome (a b : str) (ev : pyval * pyval) :
  (r ← finish a ev; Ok (chart_data r)) = (r ← finish b ev; Ok (chart_data r)).
Proof.
  unfold finish.
  destruct (enforce_valores (snd ev)) as [v|]; simpl; [|done].
  destruct (enforce_etiquetas (fst ev)) as [e|]; simpl; [|done].
  by destruct (py_sum v).
Qed.

(** ** The JSON decoder: fuel and shape of the result *)

Lemma scan_once_S (n : nat) (s : str) :
  scan_once (S n) s =
  match s with
  | [] => Raise JSONDecodeError
  | c :: t =>
      if c =? quote then '(k, r) ← scanstring t; Ok (PStr k, r)
      else if c =? chr "{" then
        match skip_ws t with
        | c' :: t' => if c' =? chr "}" then Ok (PDict [], t')
                      else object_loop n [] (c' :: t')
        | [] => Raise JSONDecodeError
        end
      else if c =? chr "[" then
        match skip_ws t with
        | c' :: t' => if c' =? chr "]" then Ok (PList [], t')
                      else array_loop n [] (c' :: t')
        | [] => Raise JSONDecodeError
        end
      else scan_atom s
  end.
Proof. reflexivity. Qed.

Lemma object_loop_S (n : nat) (d : list (str * pyval)) (s : str) :
  object_loop (S n) d s =
  match s with
  | [] => Raise JSONDecodeError
  | c :: t =>
      if c =? quote then
        '(key, s1) ← scanstring t;
        match skip_ws s1 with
        | c1 :: s2 =>
            if c1 =? chr ":" then
              '(v, s3) ← scan_once n (skip_ws s2);
              match skip_ws s3 with
              | c3 :: s4 =>
                  if c3 =? chr "}" then Ok (PDict (dict_set key v d), s4)
                  else if c3 =? chr "," then object_loop n (dict_set key v d) (skip_ws s4)
                  else Raise JSONDecodeError
              | [] => Raise JSONDecodeError
              end
            else Raise JSONDecodeError
        | [] => Raise JSONDecodeError
        end
      else Raise JSONDecodeError
  end.
Proof. reflexivity. Qed.

Lemma array_loop_S (n : nat) (acc : list pyval) (s : str) :
  array_loop (S n) acc s =
  '(v, s1) ← scan_once n s;
  match skip_ws s1 with
  | c :: s2 =>
      if c =? chr "]" then Ok (PList (acc ++ [v]), s2)
      else if c =? chr "," then array_loop n (acc ++ [v]) (skip_ws s2)
      else Raise JSONDecodeError
  | [] => Raise JSONDecodeError
  end.
Proof. reflexivity. Qed.

Lemma skip_ws_length (s : str) : (length (skip_ws s) <= length s)%nat.
Proof.
  induction s as [|c t IH]; simpl; [lia|]. destruct (is_ws c); simpl; lia.
Qed.

Lemma push_Ok (c : char) (x : res (str * str)) (k r : str) :
  push c x = Ok (k, r) -> exists k', x = Ok (k', r).
Proof.
  unfold push. destruct x as [[k' r']|]; simpl; [|done]. intros [= <- <-]. eauto.
Qed.

Lemma push_Raise (c : char) (x : res (str * str)) (e : exn) :
  push c x = Raise e -> x = Raise e.
Proof. unfold push. destruct x as [[k' r']|]; simpl; [done|]. by intros [= <-]. Qed.

Lemma scanstring_shorter (s : str) :
  forall k r, scanstring s = Ok (k, r) -> (length r < length s)%nat.
Proof.
  induction s as [s IH] using (induction_ltof1 _ (@length N)). unfold ltof in IH.
  intros k r. destruct s as [|c t]; [done|]. cbn [scanstring].
  repeat case_match; try done; subst; intros Hx;
    try (injection Hx as <- <-; simpl; lia);
    apply push_Ok in Hx as [k' Hx]; apply IH in Hx; simpl in *; lia.
Qed.

Lemma scanstring_error (s : str) (e : exn) :
  scanstring s = Raise e -> e = JSONDecodeError.
Proof.
  induction s as [s IH] using (induction_ltof1 _ (@length N)). unfold ltof in IH.
  destruct s as [|c t]; cbn [scanstring]; [by intros [= <-]|].
  repeat case_match; subst; intros Hx; try done; try (by injection Hx as <-);
    apply push_Raise in Hx; apply IH in Hx; try done; simpl; lia.
Qed.

Lemma strip_prefix_length (p s r : str) :
  strip_prefix p s = Some r -> length s = (length p + length r)%nat.
Proof.
  revert s. induction p as [|a p IH]; intros [|b s]; simpl; try done.
  - by intros [= <-].
  - by intros [= <-].
  - destruct (a =? b); [|done]. intros H. by rewrite (IH _ H).
Qed.

Lemma span_digits_length (s d r : str) :
  span_digits s = (d, r) -> length s = (length d + length r)%nat.
Proof.
  revert d r. induction s as [|c t IH]; intros d r; simpl.
  - by intros [= <- <-].
  - destruct (is_ascii_digit c).
    + destruct (span_digits t) as [d' r']. intros [= <- <-].
      simpl. by rewrite (IH _ _ eq_refl).
    + by intros [= <- <-].
Qed.

Lemma span_int_shorter (s d r : str) :
  span_int s = Some (d, r) -> (length r < length s)%nat.
Proof.
  destruct s as [|c t]; [done|]. unfold span_int.
  destruct (c =? 48); [intros [= <- <-]; simpl; lia|].
  destruct (is_ascii_digit c) eqn:E; [|done].
  intros H. assert (H' : span_digits (c :: t) = (d, r)) by (by injection H).
  pose proof (span_digits_length _ _ _ H') as Hl.
  simpl in H'. rewrite E in H'. destruct (span_digits t). injection H' as <- <-.
  simpl in *. lia.
Qed.

Lemma span_frac_length (s d r : str) :
  span_frac s = (d, r) -> (length r <= length s)%nat.
Proof.
  unfold span_frac. destruct s as [|p [|c t]]; try (intros [= <- <-]; simpl; lia).
  destruct (_ && _).
  - intros H. apply span_digits_length in H. simpl in *. lia.
  - intros [= <- <-]. simpl; lia.
Qed.

Lemma span_exp_length (s r : str) (e : Z) :
  span_exp s = Some (e, r) -> (length r <= length s)%nat.
Proof.
  unfold span_exp. destruct s as [|c t]; [done|].
  destruct (_ || _); [|done].
  assert (forall neg t', (length t' <= length t)%nat ->
            match span_digits t' with
            | ([], _) => None
            | (d, r0) => Some (if neg : bool then (- ascii_digits_value d)%Z
                               else ascii_digits_value d, r0)
            end = Some (e, r) -> (length r <= length (c :: t))%nat) as Haux.
  { intros neg t' Ht'. destruct (span_digits t') as [d r0] eqn:E.
    apply span_digits_length in E. destruct d; [done|].
    intros [= <- <-]. simpl in *. lia. }
  destruct t as [|c' u]; [apply (Haux false []); simpl; lia|].
  destruct (c' =? chr "-"); [apply (Haux true u); simpl; lia|].
  destruct (c' =? chr "+"); [apply (Haux false u) | apply (Haux false (c' :: u))];
    simpl; lia.
Qed.

Lemma match_number_shorter (s r : str) (v : pyval) :
  match_number s = Ok (v, r) -> (length r < length s)%nat.
Proof.
  unfold match_number.
  assert (forall neg s1, (length s1 <= length s)%nat ->
    match span_int s1 with
    | None => Raise JSONDecodeError
    | Some (ds, s2) =>
        let '(fs, s3) := span_frac s2 in
        match fs, span_exp s3 with
        | [], None =>
            if decide (int_max_str_digits < length ds)%nat then Raise ValueError
            else Ok (PInt (if neg : bool then Z.opp (ascii_digits_value ds)
                           else ascii_digits_value ds), s3)
        | _, None =>
            Ok (PFloat (float_of_decimal neg (ascii_digits_value (ds ++ fs))
                          (- Z.of_nat (length fs))), s3)
        | _, Some (e, s4) =>
            Ok (PFloat (float_of_decimal neg (ascii_digits_value (ds ++ fs))
                          (e - Z.of_nat (length fs))), s4)
        end
    end = Ok (v, r) -> (length r < length s)%nat) as Haux.
  { intros neg s1 Hs1. destruct (span_int s1) as [[ds s2]|] eqn:E1; [|done].
    apply span_int_shorter in E1. destruct (span_frac s2) as [fs s3] eqn:E2.
    apply span_frac_length in E2.
    destruct (span_exp s3) as [[e s4]|] eqn:E3.
    - apply span_exp_length in E3. destruct fs; intros [= <- <-]; lia.
    - destruct fs; [case_decide; [done|]|]; intros [= <- <-]; lia. }
  destruct s as [|c t]; [apply (Haux false []); simpl; lia|].
  destruct (c =? chr "-"); [apply (Haux true t) | apply (Haux false (c :: t))];
    simpl; lia.
Qed.

Lemma match_number_error (s : str) (e : exn) :
  match_number s = Raise e -> e <> RecursionError.
Proof.
  unfold match_number. repeat case_match; by intros [= <-].
Qed.

Lemma scan_atom_shorter (s r : str) (v : pyval) :
  scan_atom s = Ok (v, r) -> (length r < length s)%nat.
Proof.
  unfold scan_atom.
  repeat (case_match; [match goal with H : strip_prefix _ _ = Some _ |- _ =>
            apply strip_prefix_length in H; simpl in H end;
            intros [= <- <-]; lia|]).
  apply match_number_shorter.
Qed.

Lemma scan_atom_error (s : str) (e : exn) :
  scan_atom s = Raise e -> e <> RecursionError.
Proof.
  unfold scan_atom. repeat (case_match; [done|]). apply match_number_error.
Qed.

Ltac json_step :=
  cbn -[N.eqb chr skip_ws scan_once object_loop array_loop scanstring scan_atom Nat.mul].

Lemma scan_shorter (n : nat) :
  (forall s v r, scan_once n s = Ok (v, r) -> (length r < length s)%nat)
  /\ (forall d s v r, object_loop n d s = Ok (v, r) -> (length r < length s)%nat)
  /\ (forall acc s v r, array_loop n acc s = Ok (v, r) -> (length r < length s)%nat).
Proof.
  induction n as [|n (IHs & IHo & IHa)]; [by repeat split|].
  split; [|split].
  - intros s v r. rewrite scan_once_S. destruct s as [|c t]; [done|].
    destruct (c =? quote).
    { destruct (scanstring t) as [[k r']|] eqn:E; json_step; [|done].
      intros [= <- <-]. apply scanstring_shorter in E. simpl; lia. }
    pose proof (skip_ws_length t) as Hw.
    destruct (c =? chr "{").
    { destruct (skip_ws t) as [|c' t'] eqn:E; [done|].
      destruct (c' =? chr "}"); [intros [= <- <-]; simpl in *; lia|].
      intros H. apply IHo in H. simpl in *; lia. }
    destruct (c =? chr "[").
    { destruct (skip_ws t) as [|c' t'] eqn:E; [done|].
      destruct (c' =? chr "]"); [intros [= <- <-]; simpl in *; lia|].
      intros H. apply IHa in H. simpl in *; lia. }
    apply scan_atom_shorter.
  - intros d s v r. rewrite object_loop_S. destruct s as [|c t]; [done|].
    destruct (c =? quote); [|done].
    destruct (scanstring t) as [[key s1]|] eqn:E1; json_step; [|done].
    apply scanstring_shorter in E1. pose proof (skip_ws_length s1) as Hw1.
    destruct (skip_ws s1) as [|c1 s2]; [done|].
    destruct (c1 =? chr ":"); [|done].
    pose proof (skip_ws_length s2) as Hw2.
    destruct (scan_once n (skip_ws s2)) as [[w s3]|] eqn:E2; json_step; [|done].
    apply IHs in E2. pose proof (skip_ws_length s3) as Hw3.
    destruct (skip_ws s3) as [|c3 s4]; [done|].
    destruct (c3 =? chr "}"); [intros [= <- <-]; simpl in *; lia|].
    destruct (c3 =? chr ","); [|done].
    intros H. apply IHo in H. pose proof (skip_ws_length s4). simpl in *; lia.
  - intros acc s v r. rewrite array_loop_S.
    destruct (scan_once n s) as [[w s1]|] eqn:E1; json_step; [|done].
    apply IHs in E1. pose proof (skip_ws_length s1) as Hw1.
    destruct (skip_ws s1) as [|c s2]; [done|].
    destruct (c =? chr "]"); [intros [= <- <-]; simpl in *; lia|].
    destruct (c =? chr ","); [|done].
    intros H. apply IHa in H. pose proof (skip_ws_length s2). simpl in *; lia.
Qed.

(** With twice the length of the text as fuel (and one more), the scanner
    never runs out. *)
Lemma scan_fuel (n : nat) :
  (forall s, (2 * length s < n)%nat -> scan_once n s <> Raise RecursionError)
  /\ (forall d s, (2 * length s < n)%nat -> object_loop n d s <> Raise RecursionError)
  /\ (forall acc s, (2 * length s + 1 < n)%nat -> array_loop n acc s <> Raise RecursionError).
Proof.
  induction n as [|n (IHs & IHo & IHa)]; [repeat split; intros; lia|].
  split; [|split].
  - intros s Hn. rewrite scan_once_S. destruct s as [|c t]; [done|].
    destruct (c =? quote).
    { destruct (scanstring t) as [[k r']|] eqn:E; json_step; [done|].
      apply scanstring_error in E as ->. done. }
    pose proof (skip_ws_length t) as Hw.
    destruct (c =? chr "{").
    { destruct (skip_ws t) as [|c' t'] eqn:E; [done|].
      destruct (c' =? chr "}"); [done|]. apply IHo. simpl in *; lia. }
    destruct (c =? chr "[").
    { destruct (skip_ws t) as [|c' t'] eqn:E; [done|].
      destruct (c' =? chr "]"); [done|]. apply IHa. simpl in *; lia. }
    intros H. by apply scan_atom_error in H.
  - intros d s Hn. rewrite object_loop_S. destruct s as [|c t]; [done|].
    destruct (c =? quote); [|done].
    destruct (scanstring t) as [[key s1]|] eqn:E1; json_step;
      [|apply scanstring_error in E1 as ->; done].
    apply scanstring_shorter in E1. pose proof (skip_ws_length s1) as Hw1.
    destruct (skip_ws s1) as [|c1 s2]; [done|].
    destruct (c1 =? chr ":"); [|done].
    pose proof (skip_ws_length s2) as Hw2.
    destruct (scan_once n (skip_ws s2)) as [[w s3]|e] eqn:E2; json_step.
    + apply (proj1 (scan_shorter n)) in E2. pose proof (skip_ws_length s3) as Hw3.
      destruct (skip_ws s3) as [|c3 s4]; [done|].
      destruct (c3 =? chr "}"); [done|].
      destruct (c3 =? chr ","); [|done].
      apply IHo. pose proof (skip_ws_length s4). simpl in *; lia.
    + intros [= ->]. revert E2. apply IHs. simpl in *; lia.
  - intros acc s Hn. rewrite array_loop_S.
    destruct (scan_once n s) as [[w s1]|e] eqn:E1; json_step.
    + apply (proj1 (scan_shorter n)) in E1. pose proof (skip_ws_length s1) as Hw1.
      destruct (skip_ws s1) as [|c s2]; [done|].
      destruct (c =? chr "]"); [done|].
      destruct (c =? chr ","); [|done].
      apply IHa. pose proof (skip_ws_length s2). simpl in *; lia.
    + intros [= ->]. revert E1. apply IHs. lia.
Qed.

(** [json.loads] in the model never fails for lack of fuel. *)
Lemma json_loads_fuel (s : str) : json_loads s <> Raise RecursionError.
Proof.
  unfold json_loads. destruct (starts_with_bom s); [done|].
  destruct (scan_once _ _) as [[v r]|e] eqn:E; json_step.
  - by destruct (skip_ws r).
  - intros [= ->]. revert E. apply (proj1 (scan_fuel _)).
    pose proof (skip_ws_length s). lia.
Qed.

Lemma object_loop_dict (n : nat) (d : list (str * pyval)) (s r : str) (v : pyval) :
  object_loop n d s = Ok (v, r) -> exists d', v = PDict d'.
Proof.
  revert d s. induction n as [|n IH]; intros d s; [done|].
  rewrite object_loop_S. destruct s as [|c t]; [done|].
  destruct (c =? quote); [|done].
  destruct (scanstring t) as [[key s1]|]; json_step; [|done].
  destruct (skip_ws s1) as [|c1 s2]; [done|].
  destruct (c1 =? chr ":"); [|done].
  destruct (scan_once n (skip_ws s2)) as [[w s3]|]; json_step; [|done].
  destruct (skip_ws s3) as [|c3 s4]; [done|].
  destruct (c3 =? chr "}"); [intros [= <- <-]; eauto|].
  destruct (c3 =? chr ","); [apply IH | done].
Qed.

Lemma scan_once_brace (n : nat) (t : str) :
  scan_once (S n) (chr "{" :: t) =
  match skip_ws t with
  | c' :: t' => if c' =? chr "}" then Ok (PDict [], t') else object_loop n [] (c' :: t')
  | [] => Raise JSONDecodeError
  end.
Proof. by rewrite scan_once_S. Qed.

(** What [json.loads] returns for a text that starts with an opening brace
    is a dict. *)
Lemma json_loads_brace (s : str) (v : pyval) :
  json_loads (chr "{" :: s) = Ok v -> exists d, v = PDict d.
Proof.
  unfold json_loads.
  change (starts_with_bom (chr "{" :: s)) with false.
  change (skip_ws (chr "{" :: s)) with (chr "{" :: s).
  cbv iota. rewrite scan_once_brace.
  destruct (skip_ws s) as [|c' t']; [done|].
  destruct (c' =? chr "}").
  - json_step. destruct (skip_ws t'); [|done]. intros [= <-]. eauto.
  - destruct (object_loop _ _ _) as [[w r]|] eqn:E; json_step; [|done].
    apply object_loop_dict in E as [d ->].
    destruct (skip_ws r); [|done]. intros [= <-]. eauto.
Qed.

(** ** The tokens of the fallback *)

Lemma comma_not_decimal : is_decimal (chr ",") = false.
Proof. by vm_compute. Qed.

Lemma token_char_class (c : char) :
  token_char c <-> in_class (Union (Chr (chr ",")) Digit) c = true.
Proof.
  unfold token_char. cbn [in_class]. rewrite orb_true_iff, N.eqb_eq. tauto.
Qed.

Lemma greedy_tail (more rest : str) :
  Forall token_char more -> ends_token rest ->
  greedy (Union (Chr (chr ",")) Digit) (fun s => Some ([], s)) (more ++ rest)
  = Some (more, rest).
Proof.
  intros Hm Hr. induction Hm as [|c more Hc _ IH]; cbn [app].
  - destruct rest as [|c t]; [reflexivity|]. cbn [greedy].
    destruct (in_class _ c) eqn:E; [|reflexivity].
    exfalso. apply Hr. by apply token_char_class.
  - cbn [greedy]. apply token_char_class in Hc. by rewrite Hc, IH.
Qed.

Lemma greedy_cons (k : cclass) (rest : str -> option (str * str)) (c : char) (t : str) :
  greedy k rest (c :: t)
  = if in_class k c
    then match greedy k rest t with
         | Some (m, s') => Some (c :: m, s')
         | None => rest (c :: t)
         end
    else rest (c :: t).
Proof. reflexivity. Qed.

Lemma greedy_digits (more rest : str) :
  Forall token_char more -> ends_token rest ->
  greedy Digit (greedy (Union (Chr (chr ",")) Digit) (fun s => Some ([], s)))
    (more ++ rest)
  = Some (more, rest).
Proof.
  intros Hm Hr. induction Hm as [|c more Hc Hm IH]; cbn [app].
  - rewrite <- (greedy_tail [] rest) by done. cbn [app].
    destruct rest as [|c t]; [reflexivity|]. cbn [greedy in_class].
    destruct (is_decimal c) eqn:E; [|reflexivity].
    exfalso. apply Hr. by left.
  - rewrite (greedy_cons Digit). cbn [in_class]. destruct (is_decimal c) eqn:E.
    + by rewrite IH.
    + apply (greedy_tail (c :: more) rest); [by constructor | done].
Qed.

Lemma match_number_token (d : char) (more rest : str) :
  is_decimal d = true -> Forall token_char more -> ends_token rest ->
  match_here number_re ((d :: more) ++ rest) = Some (d :: more, rest).
Proof.
  intros Hd Hm Hr. cbn [app match_here number_re one in_class]. rewrite Hd.
  by rewrite greedy_digits.
Qed.

Lemma match_number_none (c : char) (s : str) :
  is_decimal c = false -> match_here number_re (c :: s) = None.
Proof. intros Hc. cbn [match_here number_re one in_class]. by rewrite Hc. Qed.

Lemma findall_skip (r : regex) (m rest : str) :
  findall_from r (length m) (m ++ rest) = findall_from r 0 rest.
Proof.
  induction m as [|c m IH]; [reflexivity|]. cbn [length app findall_from]. exact IH.
Qed.

Lemma findall_gap (gap s : str) :
  Forall (fun c => is_decimal c = false) gap ->
  findall_from number_re 0 (gap ++ s) = findall_from number_re 0 s.
Proof.
  induction 1 as [|c gap Hc _ IH]; [reflexivity|].
  cbn [app findall_from]. by rewrite (match_number_none c _ Hc).
Qed.

(** [re.findall] with the pattern of line 160 lists the number-like tokens
    of the text, in reading order. *)
Lemma re_findall_number_tokens (s : str) (tokens : list str) :
  number_tokens s tokens -> re_findall number_re s = tokens.
Proof.
  unfold re_findall.
  induction 1 as [gap Hg|gap d more rest tokens Hg Hd Hm Hr _ IH].
  - rewrite <- (app_nil_r gap), findall_gap by done. reflexivity.
  - rewrite findall_gap by done.
    change (findall_from number_re 0 ((d :: more) ++ rest))
      with (match match_here number_re ((d :: more) ++ rest) with
            | Some (m, _) => m :: findall_from number_re (Nat.pred (length m)) (more ++ rest)
            | None => findall_from number_re 0 (more ++ rest)
            end).
    rewrite match_number_token by done. cbn [length Nat.pred].
    by rewrite findall_skip, IH.
Qed.

Lemma span_gap (s : str) :
  exists gap rest,
    s = gap ++ rest /\ Forall (fun c => is_decimal c = false) gap
    /\ match rest with [] => True | d :: _ => is_decimal d = true end.
Proof.
  induction s as [|c s (gap & rest & -> & Hg & Hr)].
  - by exists [], [].
  - destruct (is_decimal c) eqn:E.
    + exists [], (c :: gap ++ rest). by repeat split.
    + exists (c :: gap), rest. repeat split; [by constructor | done].
Qed.

Lemma span_token (s : str) :
  exists more rest, s = more ++ rest /\ Forall token_char more /\ ends_token rest.
Proof.
  induction s as [|c s (more & rest & -> & Hm & Hr)].
  - by exists [], [].
  - destruct (in_class (Union (Chr (chr ",")) Digit) c) eqn:E.
    + exists (c :: more), rest. repeat split; [|done].
      constructor; [by apply token_char_class | done].
    + exists [], (c :: more ++ rest). repeat split; [constructor|].
      cbn. intros Hc. apply token_char_class in Hc. congruence.
Qed.

(** Every text has its list of number-like tokens. *)
Lemma number_tokens_exist (s : str) : exists tokens, number_tokens s tokens.
Proof.
  remember (length s) as n eqn:Hn. revert s Hn.
  induction n as [n IH] using lt_wf_ind. intros s ->.
  destruct (span_gap s) as (gap & rest & -> & Hg & Hr).
  destruct rest as [|d rest].
  - exists []. rewrite app_nil_r. by constructor.
  - destruct (span_token rest) as (more & rest' & -> & Hm & Hr').
    destruct (IH (length rest')) with (s := rest') as [tokens Ht]; [|done|].
    { rewrite !length_app. cbn. rewrite length_app. lia. }
    exists ((d :: more) :: tokens).
    change (d :: more ++ rest') with ((d :: more) ++ rest'). by constructor.
Qed.

(** ** The values of the tokens *)

Lemma digits_value_token (acc : Z) (token : str) :
  Forall token_char token ->
  digits_value acc (remove_char (chr ",") token)
  = Some (fold_left (fun acc c => match decimal_value c with
                                  | Some d => (10 * acc + Z.of_N d)%Z
                                  | None => acc
                                  end) token acc).
Proof.
  intros H. revert acc. induction H as [|c token Hc _ IH]; intros acc; [reflexivity|].
  unfold remove_char in *. rewrite filter_cons. cbn [fold_left].
  destruct Hc as [Hc | ->].
  - assert (Hne : c <> chr ",").
    { intros ->. by rewrite comma_not_decimal in Hc. }
    rewrite decide_True by done. cbn [digits_value].
    unfold is_decimal in Hc. destruct (decimal_value c) as [d|]; [apply IH | done].
  - rewrite decide_False by (intros Hn; by apply Hn).
    assert (decimal_value (chr ",") = None) as -> by (by vm_compute).
    apply IH.
Qed.

Lemma fold_digits_nonneg (token : str) (acc : Z) :
  (0 <= acc)%Z ->
  (0 <= fold_left (fun acc c => match decimal_value c with
                                | Some d => (10 * acc + Z.of_N d)%Z
                                | None => acc
                                end) token acc)%Z.
Proof.
  revert acc. induction token as [|c token IH]; intros acc Ha; [done|].
  cbn [fold_left]. apply IH. destruct (decimal_value c); lia.
Qed.

Lemma float_of_decimal_nearest (z : Z) :
  (0 <= z)%Z -> float_of_decimal false z 0 = nearest_float z.
Proof.
  intros Hz. unfold float_of_decimal, nearest_float.
  destruct z as [|p|p]; [reflexivity| |lia].
  change (10 ^ 0)%Z with 1%Z. by rewrite Z.mul_1_r.
Qed.

(** [float(n.replace(',', ''))] of a token is the float nearest to the
    number the token stands for. *)
Lemma float_of_token_number (d : char) (more : str) :
  is_decimal d = true -> Forall token_char more ->
  float_of_token (d :: more) = Ok (token_float (d :: more)).
Proof.
  intros Hd Hm. unfold float_of_token, py_float, token_float.
  assert (Ht : Forall token_char (d :: more)) by (constructor; [by left | done]).
  rewrite (digits_value_token 0 _ Ht).
  assert (Hne : d <> chr ",").
  { intros ->. by rewrite comma_not_decimal in Hd. }
  unfold remove_char. rewrite filter_cons, decide_True by done.
  by rewrite float_of_decimal_nearest by (by apply fold_digits_nonneg).
Qed.

Lemma number_tokens_shape (s : str) (tokens : list str) :
  number_tokens s tokens ->
  Forall (fun token => exists d more, token = d :: more /\ is_decimal d = true
                                      /\ Forall token_char more) tokens.
Proof. induction 1; constructor; eauto. Qed.

Lemma mapM_float_of_tokens (tokens : list str) :
  Forall (fun token => exists d more, token = d :: more /\ is_decimal d = true
                                      /\ Forall token_char more) tokens ->
  mapM float_of_token tokens = Ok (map token_float tokens).
Proof.
  induction 1 as [|token tokens (d & more & -> & Hd & Hm) _ IH]; [reflexivity|].
  cbn [mapM map]. rewrite (float_of_token_number d more Hd Hm). cbn [mbind res_bind].
  by rewrite IH.
Qed.

Lemma pad_values_take (vs : list pyval) : pad_values (take 13 vs) = pad_values vs.
Proof.
  unfold pad_values. destruct (decide (length vs <= 13)%nat) as [H|H].
  - by rewrite (take_ge vs) by done.
  - rewrite length_take, Nat.min_l by lia.
    replace (13 - length vs)%nat with 0%nat by lia.
    cbn [Nat.sub replicate]. rewrite !app_nil_r. apply take_take.
Qed.

(** Whenever the extraction took the fallback, the handler returns the
    synthetic labels and the floats of the first thirteen tokens, then the
    int 0 up to thirteen. *)
Lemma normalize_of_tokens (raw : str) (tokens : list str) :
  extract raw = fallback raw ->
  number_tokens raw tokens ->
  exists total,
    py_sum (PList (pad_values (map token_float tokens))) = Ok total
    /\ normalize raw =
       Ok {| etiquetas := synthetic_labels;
             valores := PList (pad_values (map token_float tokens));
             suma_total := total; raw_response := raw |}.
Proof.
  intros Hx Ht.
  assert (E : fallback raw = Ok (PList (map col_label (seq 0 13)),
                                 PList (map token_float (take 13 tokens)))).
  { unfold fallback. rewrite (re_findall_number_tokens _ _ Ht).
    rewrite mapM_float_of_tokens; [reflexivity|].
    apply Forall_take. by eapply number_tokens_shape. }
  destruct (sum_from_floats (PInt 0) (pad_values (map token_float tokens)))
    as [total Hs].
  { by left. }
  { unfold pad_values. apply Forall_take, Forall_app. split.
    - apply Forall_map, Forall_forall. intros token _. by left.
    - apply Forall_replicate. by right. }
  exists total. split; [exact Hs|].
  unfold normalize. rewrite Hx, E. cbn [mbind res_bind]. rewrite finish_lists.
  rewrite <- firstn_map, pad_values_take.
  change (py_sum (PList (pad_values (map token_float tokens))))
    with (sum_from (PInt 0) (pad_values (map token_float tokens))).
  rewrite Hs. cbn [mbind res_bind].
  assert (PList (pad_labels (map col_label (seq 0 13))) = synthetic_labels) as ->
    by (by vm_compute).
  reflexivity.
Qed.

(** * The claims *)

(** C1. The claim: for every raw text the normalization succeeds with
    thirteen labels and thirteen values, and no degradation surfaces as an
    error.  The code departs from it: the bare [except:] covers the parsing
    only; when the first region parses as an object whose "valores" is a
    number, [len] raises TypeError outside it, and the handler answers with
    status 500. *)
Theorem scalar_valores_surfaces_as_error :
  re_search json_re raw_scalar = Some raw_scalar
  /\ json_loads raw_scalar = Ok (PDict [(txt "valores", PInt 5)])
  /\ normalize raw_scalar = Raise TypeError
  /\ fst (analyze_chart (world_answering (txt "key") 0 raw_scalar) {| image_base64 := [] |})
     = Raise (HTTPException 500 (Formatted "Error al analizar la imagen: " TypeError)).
Proof. repeat split; vm_compute; reflexivity. Qed.

(** Side conditions of [number_tokens] on a given text. *)
Ltac token_side :=
  lazymatch goal with
  | |- Forall _ _ =>
      repeat (constructor;
              [first [by vm_compute | left; by vm_compute | right; by vm_compute]|]);
      constructor
  | |- ends_token _ =>
      first [exact I | intros [Hc|Hc]; vm_compute in Hc; discriminate]
  | |- _ = _ => by vm_compute
  end.

(** C5. For every raw response that holds no JSON-shaped region, the
    normalizer returns the labels "Col 1" to "Col 13" and, as values, the
    numbers of the first thirteen number-like tokens of the text in reading
    order, each read without its commas and rounded to a float, followed by
    zeros up to thirteen; the total is their sum.  Every text has such a
    list of tokens. *)
Theorem fallback_when_no_json (raw : str) :
  ~ json_shaped raw ->
  (exists tokens, number_tokens raw tokens)
  /\ forall tokens, number_tokens raw tokens ->
     exists total,
       py_sum (PList (pad_values (map token_float tokens))) = Ok total
       /\ normalize raw =
          Ok {| etiquetas := synthetic_labels;
                valores := PList (pad_values (map token_float tokens));
                suma_total := total; raw_response := raw |}.
Proof.
  intros Hs. split; [apply number_tokens_exist|].
  intros tokens Ht. apply normalize_of_tokens; [|exact Ht].
  by apply extract_no_match, re_search_None.
Qed.

Lemma fallback_when_no_json_witness :
  ~ json_shaped raw_no_json
  /\ number_tokens raw_no_json [txt "1,680"; txt "930"]
  /\ normalize raw_no_json =
     Ok {| etiquetas := synthetic_labels;
           valores := PList (PFloat float_1680 :: PFloat float_930
                             :: replicate 11 (PInt 0));
           suma_total := PFloat float_2610;
           raw_response := raw_no_json |}
  /\ int_eq_float 1680 float_1680 = true
  /\ int_eq_float 930 float_930 = true
  /\ int_eq_float 2610 float_2610 = true.
Proof.
  assert (Hj : ~ json_shaped raw_no_json).
  { apply re_search_None. vm_compute. reflexivity. }
  assert (Ht : number_tokens raw_no_json [txt "1,680"; txt "930"]).
  { apply (tokens_next (txt "no JSON here but ") (chr "1") (txt ",680")
             (txt " and 930 appear") [txt "930"]); [token_side ..|].
    apply (tokens_next (txt " and ") (chr "9") (txt "30") (txt " appear") []);
      [token_side ..|].
    apply tokens_none. token_side. }
  split; [exact Hj|]. split; [exact Ht|].
  split; [|repeat split; vm_compute; reflexivity].
  destruct (fallback_when_no_json raw_no_json Hj) as [_ H].
  destruct (H _ Ht) as (total & Hs & Hn).
  rewrite Hn. vm_compute in Hs. injection Hs as <-. vm_compute. reflexivity.
Defined.


(** ** C2: the first thirteen entries *)

(** C2, counterexample.  Two raw texts that are, each as a whole, one
    well-formed JSON object with thirteen labels and thirteen values.
    In the first a label holds a closing brace: the search stops at it, the
    region does not parse, and the fallback replaces the labels by "Col 1" to
    "Col 13".  In the second the values are strings: [sum] raises TypeError
    and nothing is returned. *)
Lemma first_13_counterexample :
  json_loads raw_brace_label
    = Ok (PDict [(txt "etiquetas", PList labels_brace); (txt "valores", PList values_thirteen)])
  /\ length labels_brace = 13%nat /\ length values_thirteen = 13%nat
  /\ (r ← normalize raw_brace_label; Ok (etiquetas r)) = Ok (PList (map col_label (seq 0 13)))
  /\ PList (map col_label (seq 0 13)) <> PList (take 13 labels_brace)
  /\ json_loads raw_text_values
    = Ok (PDict [(txt "etiquetas", PList (take 13 labels_fourteen)); (txt "valores", PList values_text)])
  /\ length values_text = 13%nat
  /\ normalize raw_text_values = Raise TypeError.
Proof.
  repeat split; try (vm_compute; reflexivity).
  vm_compute. discriminate.
Qed.

(** C2, amended.  When the first JSON-shaped region of the raw text parses as
    an object whose "etiquetas" and "valores" are lists of at least thirteen
    entries, and [sum] accepts the first thirteen values, the normalizer
    returns exactly the first thirteen of each, in order, and that sum. *)
Theorem first_13_of_first_region (raw json_match : str) (d : list (str * pyval))
    (ls vs : list pyval) (total : pyval) :
  re_search json_re raw = Some json_match ->
  json_loads json_match = Ok (PDict d) ->
  dict_lookup (txt "etiquetas") d = Some (PList ls) ->
  dict_lookup (txt "valores") d = Some (PList vs) ->
  (13 <= length ls)%nat ->
  (13 <= length vs)%nat ->
  py_sum (PList (take 13 vs)) = Ok total ->
  normalize raw =
  Ok {| etiquetas := PList (take 13 ls); valores := PList (take 13 vs);
        suma_total := total; raw_response := raw |}.
Proof.
  intros Hs Hj He Hv Hls Hvs Ht.
  rewrite (normalize_json_path _ _ _ Hs Hj). unfold field. rewrite He, Hv. simpl.
  rewrite finish_lists, pad_values_long, pad_labels_long by done.
  by rewrite Ht.
Qed.

Lemma first_13_of_first_region_witness :
  re_search json_re raw_fourteen = Some raw_fourteen
  /\ (13 <= length labels_fourteen)%nat
  /\ (13 <= length values_fourteen)%nat
  /\ normalize raw_fourteen =
     Ok {| etiquetas := PList (take 13 labels_fourteen);
           valores := PList (take 13 values_fourteen);
           suma_total := PInt 91; raw_response := raw_fourteen |}.
Proof.
  split; [vm_compute; reflexivity|].
  split; [vm_compute; lia|]. split; [vm_compute; lia|].
  apply (first_13_of_first_region raw_fourteen raw_fourteen
           [(txt "etiquetas", PList labels_fourteen); (txt "valores", PList values_fourteen)]
           labels_fourteen values_fourteen (PInt 91));
    try (vm_compute; reflexivity); vm_compute; lia.
Defined.

(** [sum] accepts any list of ints. *)
Lemma sum_from_ints (acc : Z) (zs : list Z) :
  sum_from (PInt acc) (map PInt zs) = Ok (PInt (fold_left Z.add zs acc)).
Proof.
  revert acc. induction zs as [|z zs IH]; intros acc; simpl; [done|]. apply IH.
Qed.

(** ** C3: the total *)

(** C3. Whenever the normalizer returns, the values it returns are thirteen
    and the total is the sum of exactly these; so whenever the values before
    the enforcement sum to something else, the total is not that sum. *)
Theorem total_is_sum_of_final_values (raw : str) (r : ChartResult) :
  normalize raw = Ok r ->
  py_len (valores r) = Ok 13%nat
  /\ py_sum (valores r) = Ok (suma_total r)
  /\ forall ev, extract raw = Ok ev ->
       py_sum (snd ev) <> py_sum (valores r) -> py_sum (snd ev) <> Ok (suma_total r).
Proof.
  intros Hn. destruct (normalize_Ok _ _ Hn) as (ev & Hx & Hf).
  destruct (finish_Ok _ _ _ Hf) as (Hv & _ & Hs & _).
  split; [by eapply enforce_valores_len|]. split; [done|].
  intros ev' Hx' Hne. by rewrite <- Hs.
Qed.

Lemma total_is_sum_of_final_values_witness :
  normalize raw_fourteen = Ok result_fourteen
  /\ extract raw_fourteen = Ok (PList labels_fourteen, PList values_fourteen)
  /\ py_sum (PList values_fourteen) = Ok (PInt 105)
  /\ py_len (valores result_fourteen) = Ok 13%nat
  /\ py_sum (valores result_fourteen) = Ok (suma_total result_fourteen)
  /\ py_sum (PList values_fourteen) <> Ok (suma_total result_fourteen).
Proof.
  assert (Hn : normalize raw_fourteen = Ok result_fourteen) by (vm_compute; reflexivity).
  assert (Hx : extract raw_fourteen = Ok (PList labels_fourteen, PList values_fourteen))
    by (vm_compute; reflexivity).
  destruct (total_is_sum_of_final_values raw_fourteen result_fourteen Hn) as (Hl & Hs & Hp).
  repeat split; try assumption; try (vm_compute; reflexivity).
  apply (Hp _ Hx). vm_compute. discriminate.
Defined.

(** ** C7: no credential *)

(** C7. Without an API key (the variable unset or empty) [analyze_chart]
    raises at once: no call to the external model is made, and the client
    gets status 500 for the configuration error "API key no configurada"
    (re-raised by the final [except Exception] under its own prefix). *)
Theorem no_key_fails_before_any_call (w : World) (request : AnalyzeRequest) :
  OPENAI_API_KEY w = None \/ OPENAI_API_KEY w = Some [] ->
  analyze_chart w request =
  (Raise (HTTPException 500
            (Formatted "Error al analizar la imagen: "
               (HTTPException 500 (Literal "API key no configurada")))),
   []).
Proof.
  intros [H|H]; unfold analyze_chart; rewrite H; reflexivity.
Qed.

Lemma no_key_fails_before_any_call_witness :
  (OPENAI_API_KEY world_without_key = None \/ OPENAI_API_KEY world_without_key = Some [])
  /\ analyze_chart world_without_key {| image_base64 := txt "iVBORw0KGgo=" |} =
     (Raise (HTTPException 500
               (Formatted "Error al analizar la imagen: "
                  (HTTPException 500 (Literal "API key no configurada")))),
      []).
Proof.
  split; [left; reflexivity|].
  apply (no_key_fails_before_any_call world_without_key). left; reflexivity.
Defined.

(** ** C9: determinism *)

Lemma analyze_chart_with_key (w : World) (request : AnalyzeRequest) (api_key raw : str) :
  OPENAI_API_KEY w = Some api_key -> api_key <> [] ->
  send_message w (llm_call w request api_key) = Ok raw ->
  analyze_chart w request =
  (except_Exception "Error al analizar la imagen: " (normalize raw),
   [llm_call w request api_key]).
Proof.
  intros Hk Hne Hm. unfold analyze_chart. rewrite Hk.
  destruct api_key as [|c k]; [done|].
  cbv zeta. by rewrite Hm.
Qed.

(** C9. Two runs of the handler in which the model gave the same raw text
    end the same way, whatever the clock, the key and the image were: the
    same labels, values, total and echoed text, or the same exception. *)
Theorem normalization_is_deterministic (w1 w2 : World) (q1 q2 : AnalyzeRequest)
    (k1 k2 raw : str) :
  OPENAI_API_KEY w1 = Some k1 -> k1 <> [] ->
  OPENAI_API_KEY w2 = Some k2 -> k2 <> [] ->
  send_message w1 (llm_call w1 q1 k1) = Ok raw ->
  send_message w2 (llm_call w2 q2 k2) = Ok raw ->
  fst (analyze_chart w1 q1) = fst (analyze_chart w2 q2).
Proof.
  intros H1 N1 H2 N2 M1 M2.
  rewrite (analyze_chart_with_key w1 q1 k1 raw), (analyze_chart_with_key w2 q2 k2 raw);
    done.
Qed.

Lemma normalization_is_deterministic_witness :
  fst (analyze_chart (world_answering (txt "key-1") 1700000000 raw_no_json)
                     {| image_base64 := txt "AAAA" |})
  = fst (analyze_chart (world_answering (txt "key-2") 1800000000 raw_no_json)
                       {| image_base64 := txt "BBBB" |}).
Proof.
  apply (normalization_is_deterministic _ _ _ _ (txt "key-1") (txt "key-2") raw_no_json);
    try reflexivity; vm_compute; discriminate.
Defined.

(** ** C8: the first region *)

(** C8, counterexample.  Two raw texts with the same first region and a
    different second one: the first region does not parse, the fallback
    scans the whole text, and the values differ. *)
Lemma later_region_counterexample :
  re_search json_re raw_later_five = Some (txt "{x}")
  /\ re_search json_re raw_later_seven = Some (txt "{x}")
  /\ outcome raw_later_five
     = Ok (PList (map col_label (seq 0 13)),
           PList (PFloat (float_of_decimal false 5 0) :: replicate 12 (PInt 0)),
           PFloat (float_of_decimal false 5 0))
  /\ outcome raw_later_seven
     = Ok (PList (map col_label (seq 0 13)),
           PList (PFloat (float_of_decimal false 7 0) :: replicate 12 (PInt 0)),
           PFloat (float_of_decimal false 7 0))
  /\ outcome raw_later_five <> outcome raw_later_seven.
Proof.
  repeat split; try (vm_compute; reflexivity).
  vm_compute. discriminate.
Qed.

(** C8, amended.  The search selects the first JSON-shaped region
    ([re_search_first_region]); when that region parses as JSON (it is then
    an object, [json_loads_brace]), the labels, values and total, or the
    exception, depend on it alone, and the rest of the text, later regions
    included, is ignored. *)
Theorem first_region_decides (a b json_match : str) (v : pyval) :
  re_search json_re a = Some json_match ->
  re_search json_re b = Some json_match ->
  json_loads json_match = Ok v ->
  outcome a = outcome b.
Proof.
  intros Ha Hb Hj. unfold outcome.
  destruct (re_search_Some _ _ Ha) as (_ & body & _ & _ & Hm & _).
  rewrite Hm in Hj. destruct (json_loads_brace _ _ Hj) as [d ->]. rewrite <- Hm in Hj.
  rewrite (normalize_json_path _ _ _ Ha Hj), (normalize_json_path _ _ _ Hb Hj).
  apply finish_outcome.
Qed.

Lemma first_region_decides_witness :
  re_search json_re raw_two_regions = Some (txt "{'valores': [5]}")
  /\ re_search json_re raw_one_region = Some (txt "{'valores': [5]}")
  /\ outcome raw_two_regions = outcome raw_one_region.
Proof.
  split; [vm_compute; reflexivity|]. split; [vm_compute; reflexivity|].
  apply (first_region_decides _ _ (txt "{'valores': [5]}") (PDict [(txt "valores", PList [PInt 5])]));
    vm_compute; reflexivity.
Defined.

(** ** C10: a missing key *)

(** C10. When the first region parses as an object, there is no fallback: a
    missing "valores" gives thirteen zeros and the total 0 whatever numbers
    the text holds, and a missing "etiquetas" gives "Col 1" to "Col 13";
    the field that is present (a list) is padded or cut as usual. *)
Theorem missing_key_is_empty_list (raw json_match : str) (d : list (str * pyval)) :
  re_search json_re raw = Some json_match ->
  json_loads json_match = Ok (PDict d) ->
  (dict_lookup (txt "valores") d = None ->
   forall ls, field "etiquetas" d = PList ls ->
     normalize raw =
     Ok {| etiquetas := PList (pad_labels ls);
           valores := PList (replicate 13 (PInt 0));
           suma_total := PInt 0; raw_response := raw |})
  /\ (dict_lookup (txt "etiquetas") d = None ->
      forall vs total, field "valores" d = PList vs ->
        py_sum (PList (pad_values vs)) = Ok total ->
        normalize raw =
        Ok {| etiquetas := PList (map col_label (seq 0 13));
              valores := PList (pad_values vs);
              suma_total := total; raw_response := raw |}).
Proof.
  intros Hs Hj. rewrite (normalize_json_path _ _ _ Hs Hj). split.
  - intros Hv ls He. rewrite He. unfold field at 1. rewrite Hv. simpl.
    by rewrite finish_lists.
  - intros He vs total Hv Ht. rewrite Hv. unfold field at 1. rewrite He. simpl.
    rewrite finish_lists, Ht. reflexivity.
Qed.

Lemma missing_key_is_empty_list_witness :
  (re_search json_re raw_no_valores = Some (txt "{'etiquetas': ['Ene']}")
   /\ re_findall number_re raw_no_valores = [txt "1,680"; txt "930"]
   /\ normalize raw_no_valores =
      Ok {| etiquetas := PList (pad_labels [PStr (txt "Ene")]);
            valores := PList (replicate 13 (PInt 0));
            suma_total := PInt 0; raw_response := raw_no_valores |})
  /\ (re_search json_re raw_no_etiquetas = Some (txt "{'valores': [100, 200]}")
      /\ normalize raw_no_etiquetas =
         Ok {| etiquetas := PList (map col_label (seq 0 13));
               valores := PList (pad_values [PInt 100; PInt 200]);
               suma_total := PInt 300; raw_response := raw_no_etiquetas |}).
Proof.
  split.
  - split; [vm_compute; reflexivity|]. split; [vm_compute; reflexivity|].
    apply (missing_key_is_empty_list raw_no_valores (txt "{'etiquetas': ['Ene']}")
             [(txt "etiquetas", PList [PStr (txt "Ene")])]);
      vm_compute; reflexivity.
  - split; [vm_compute; reflexivity|].
    apply (missing_key_is_empty_list raw_no_etiquetas (txt "{'valores': [100, 200]}")
             [(txt "valores", PList [PInt 100; PInt 200])]);
      vm_compute; reflexivity.
Defined.

(** ** C4: deleting what is not there *)

Lemma delete_calculation_missing (calculations : gmap N pyval) (calculation_id : str) (oid : N) :
  ObjectId calculation_id = Ok oid ->
  calculations !! oid = None ->
  delete_calculation calculations calculation_id =
  (Raise (HTTPException 500
            (Formatted "Error al eliminar el cálculo: "
               (HTTPException 404 (Literal "Cálculo no encontrado")))),
   calculations).
Proof.
  intros Ho Hl. unfold delete_calculation, delete_one. rewrite Ho, Hl. reflexivity.
Qed.

Lemma delete_calculation_invalid (calculations : gmap N pyval) (calculation_id : str) (e : exn) :
  ObjectId calculation_id = Raise e ->
  delete_calculation calculations calculation_id =
  (Raise (HTTPException 500 (Formatted "Error al eliminar el cálculo: " e)), calculations).
Proof.
  intros Ho. unfold delete_calculation. rewrite Ho. reflexivity.
Qed.

Lemma delete_calculation_stored (calculations : gmap N pyval) (calculation_id : str)
    (oid : N) (doc : pyval) :
  ObjectId calculation_id = Ok oid ->
  calculations !! oid = Some doc ->
  delete_calculation calculations calculation_id =
  (Ok "Cálculo eliminado exitosamente"%string, delete oid calculations).
Proof.
  intros Ho Hl. unfold delete_calculation, delete_one. rewrite Ho, Hl. reflexivity.
Qed.

(** C4. The claim: deleting an identifier that resolves to no stored record
    returns a NotFound error.  The code departs from it: it raises the 404
    inside the [try] whose [except Exception] re-raises everything as status
    500, so the client gets 500, with the 404 only in the text of the
    detail. *)
Theorem delete_missing_answers_500 :
  ObjectId missing_id = Ok 2
  /\ one_calculation !! 2 = None
  /\ delete_calculation one_calculation missing_id =
     (Raise (HTTPException 500
               (Formatted "Error al eliminar el cálculo: "
                  (HTTPException 404 (Literal "Cálculo no encontrado")))),
      one_calculation)
  /\ (e ← match fst (delete_calculation one_calculation missing_id) with
          | Raise e => Some e | Ok _ => None end; status_of e) = Some 500%Z.
Proof.
  assert (Ho : ObjectId missing_id = Ok 2) by (vm_compute; reflexivity).
  assert (Hl : one_calculation !! 2 = None) by (by apply lookup_singleton_ne).
  split; [done|]. split; [done|].
  rewrite (delete_calculation_missing _ _ _ Ho Hl). by split.
Qed.

(** ** Further properties of the two handlers *)

(** X1. Whenever [analyze_chart] returns a response, its labels and its
    values have length thirteen, and the values are a list. *)
Theorem successful_run_has_thirteen (raw : str) (r : ChartResult) :
  normalize raw = Ok r ->
  py_len (etiquetas r) = Ok 13%nat
  /\ py_len (valores r) = Ok 13%nat
  /\ exists vs, valores r = PList vs.
Proof.
  intros Hn. destruct (normalize_Ok _ _ Hn) as (ev & _ & Hf).
  destruct (finish_Ok _ _ _ Hf) as (Hv & He & Hs & _).
  pose proof (enforce_valores_len _ _ Hv) as Hlen.
  split; [by eapply enforce_etiquetas_len|]. split; [done|].
  destruct (valores r) as [| | | |s|vs|d]; try done; [|eauto|].
  - exfalso. by destruct s.
  - exfalso. by destruct d.
Qed.

Lemma successful_run_has_thirteen_witness :
  normalize raw_fourteen = Ok result_fourteen
  /\ py_len (etiquetas result_fourteen) = Ok 13%nat
  /\ py_len (valores result_fourteen) = Ok 13%nat
  /\ exists vs, valores result_fourteen = PList vs.
Proof.
  assert (Hn : normalize raw_fourteen = Ok result_fourteen) by (vm_compute; reflexivity).
  split; [exact Hn|]. exact (successful_run_has_thirteen raw_fourteen result_fourteen Hn).
Defined.

(** X2. When the first region does not parse as JSON, whatever the decoder
    raised, the normalizer takes the fallback and returns: the labels
    "Col 1" to "Col 13", the numbers of the first thirteen number-like
    tokens of the whole text (the region included), each read without its
    commas and rounded to a float, then zeros up to thirteen; the total is
    their sum. *)
Theorem fallback_when_json_invalid (raw json_match : str) (e : exn) (tokens : list str) :
  re_search json_re raw = Some json_match ->
  json_loads json_match = Raise e ->
  number_tokens raw tokens ->
  exists total,
    py_sum (PList (pad_values (map token_float tokens))) = Ok total
    /\ normalize raw =
       Ok {| etiquetas := synthetic_labels;
             valores := PList (pad_values (map token_float tokens));
             suma_total := total; raw_response := raw |}.
Proof.
  intros Hs Hj Ht. apply normalize_of_tokens; [|exact Ht].
  by eapply extract_bad_json.
Qed.

Lemma fallback_when_json_invalid_witness :
  re_search json_re raw_bad_json = Some (txt "{'valores': [1,680, 930,]}")
  /\ json_loads (txt "{'valores': [1,680, 930,]}") = Raise JSONDecodeError
  /\ number_tokens raw_bad_json [txt "1,680,"; txt "930,"; txt "12"]
  /\ normalize raw_bad_json =
     Ok {| etiquetas := synthetic_labels;
           valores := PList (PFloat float_1680 :: PFloat float_930 :: PFloat float_12
                             :: replicate 10 (PInt 0));
           suma_total := PFloat float_2622;
           raw_response := raw_bad_json |}
  /\ int_eq_float 12 float_12 = true
  /\ int_eq_float 2622 float_2622 = true.
Proof.
  assert (Hs : re_search json_re raw_bad_json = Some (txt "{'valores': [1,680, 930,]}"))
    by (vm_compute; reflexivity).
  assert (Hj : json_loads (txt "{'valores': [1,680, 930,]}") = Raise JSONDecodeError)
    by (vm_compute; reflexivity).
  assert (Ht : number_tokens raw_bad_json [txt "1,680,"; txt "930,"; txt "12"]).
  { apply (tokens_next (txt "{'valores': [") (chr "1") (txt ",680,")
             (txt " 930,]} and 12") [txt "930,"; txt "12"]); [token_side ..|].
    apply (tokens_next (txt " ") (chr "9") (txt "30,") (txt "]} and 12") [txt "12"]);
      [token_side ..|].
    apply (tokens_next (txt "]} and ") (chr "1") (txt "2") [] []); [token_side ..|].
    apply (tokens_none []). token_side. }
  split; [exact Hs|]. split; [exact Hj|]. split; [exact Ht|].
  split; [|split; vm_compute; reflexivity].
  destruct (fallback_when_json_invalid raw_bad_json _ _ _ Hs Hj Ht) as (total & Hsum & Hn).
  rewrite Hn. vm_compute in Hsum. injection Hsum as <-. vm_compute. reflexivity.
Defined.

(** X3. Deleting a stored calculation answers with the success message and
    removes that document and no other. *)
Theorem delete_stored_removes_it (calculations : gmap N pyval) (calculation_id : str)
    (oid : N) (doc : pyval) :
  ObjectId calculation_id = Ok oid ->
  calculations !! oid = Some doc ->
  fst (delete_calculation calculations calculation_id)
    = Ok "Cálculo eliminado exitosamente"%string
  /\ snd (delete_calculation calculations calculation_id) !! oid = None
  /\ forall other, other <> oid ->
       snd (delete_calculation calculations calculation_id) !! other = calculations !! other.
Proof.
  intros Ho Hl. rewrite (delete_calculation_stored _ _ _ _ Ho Hl). cbn [fst snd].
  split; [done|]. split; [apply lookup_delete_eq|].
  intros other Hne. by apply lookup_delete_ne.
Qed.

Lemma delete_stored_removes_it_witness :
  ObjectId stored_id = Ok 1
  /\ fst (delete_calculation one_calculation stored_id)
      = Ok "Cálculo eliminado exitosamente"%string
  /\ snd (delete_calculation one_calculation stored_id) !! 1 = None.
Proof.
  assert (Ho : ObjectId stored_id = Ok 1) by (vm_compute; reflexivity).
  assert (Hl : one_calculation !! 1 = Some (PDict [(txt "nombre", PStr (txt "Ana"))]))
    by apply lookup_singleton_eq.
  destruct (delete_stored_removes_it one_calculation stored_id 1 _ Ho Hl) as (H1 & H2 & _).
  by repeat split.
Defined.

Lemma hex_digits_value_None (s : str) :
  fold_left (fun acc c => a ← acc; h ← hex_value c; Some (a * 16 + h)) s None = None.
Proof. induction s as [|c s IH]; [reflexivity | exact IH]. Qed.

Lemma hex_digits_value_bad (s : str) (acc : option N) :
  Exists (fun c => hex_value c = None) s ->
  fold_left (fun acc c => a ← acc; h ← hex_value c; Some (a * 16 + h)) s acc = None.
Proof.
  intros H. revert acc. induction H as [c s Hc|c s _ IH]; intros acc.
  - cbn [fold_left]. rewrite Hc. destruct acc; apply hex_digits_value_None.
  - cbn [fold_left]. apply IH.
Qed.

Lemma ObjectId_malformed (calculation_id : str) :
  malformed calculation_id -> ObjectId calculation_id = Raise InvalidId.
Proof.
  intros [Hlen|Hbad]; unfold ObjectId.
  - by rewrite decide_False.
  - case_decide; [|done]. unfold hex_digits_value.
    rewrite hex_digits_value_bad; [done|].
    eapply Exists_impl; [exact Hbad|]. by intros c [Hc _].
Qed.

(** X4. Every identifier that is not twenty-four characters long, or that
    holds a character that is neither a hexadecimal digit nor a blank, is
    answered with status 500 wrapping InvalidId, and the collection is left
    as it was. *)
Theorem delete_malformed_id_answers_500 (calculations : gmap N pyval)
    (calculation_id : str) :
  malformed calculation_id ->
  delete_calculation calculations calculation_id =
  (Raise (HTTPException 500 (Formatted "Error al eliminar el cálculo: " InvalidId)),
   calculations).
Proof.
  intros H. by apply delete_calculation_invalid, ObjectId_malformed.
Qed.

Lemma delete_malformed_id_answers_500_witness :
  malformed (txt "00000000000000000000000g")
  /\ delete_calculation one_calculation (txt "00000000000000000000000g") =
     (Raise (HTTPException 500 (Formatted "Error al eliminar el cálculo: " InvalidId)),
      one_calculation).
Proof.
  assert (H : malformed (txt "00000000000000000000000g")).
  { right. apply Exists_exists. exists (chr "g"). split; [|by vm_compute].
    vm_compute. set_solver. }
  split; [exact H|].
  exact (delete_malformed_id_answers_500 one_calculation _ H).
Defined.

(** ** Saving, listing and deleting: the identifiers *)

Lemma hex_value_digit (d : N) : d < 16 -> hex_value (hex_digit d) = Some d.
Proof.
  intros Hd.
  assert (Hcases : In d [0; 1; 2; 3; 4; 5; 6; 7; 8; 9; 10; 11; 12; 13; 14; 15]).
  { destruct d as [|p]; [by left|].
    do 4 (destruct p as [p|p|]; try (simpl; tauto)); lia. }
  simpl in Hcases.
  repeat (destruct Hcases as [<-|Hcases]; [reflexivity|]). done.
Qed.

Lemma length_hex_of (width : nat) (n : N) : length (hex_of width n) = width.
Proof.
  revert n. induction width as [|k IH]; intros n; simpl; [done|].
  rewrite length_app, IH. simpl. lia.
Qed.

Lemma hex_digits_of (width : nat) (n acc : N) :
  fold_left (fun acc c => a ← acc; h ← hex_value c; Some (a * 16 + h))
            (hex_of width n) (Some acc)
  = Some (acc * 16 ^ N.of_nat width + n mod 16 ^ N.of_nat width).
Proof.
  revert n acc. induction width as [|k IH]; intros n acc.
  - simpl. f_equal. rewrite N.mod_1_r. lia.
  - cbn [hex_of]. rewrite fold_left_app, IH. cbn [fold_left].
    rewrite hex_value_digit by (apply N.mod_lt; lia).
    cbn [mbind option_bind]. f_equal.
    rewrite Nat2N.inj_succ, N.pow_succ_r'.
    rewrite (N.Div0.mod_mul_r n 16 (16 ^ N.of_nat k)). lia.
Qed.

(** X5. The text of an ObjectId reads back as the same ObjectId: what
    [save_calculation] and [get_calculations] hand out as "id" is accepted by
    [delete_calculation] and names the same document. *)
Theorem object_id_round_trip (oid : N) :
  oid < 2 ^ 96 -> ObjectId (str_of_oid oid) = Ok oid.
Proof.
  intros Hoid. unfold ObjectId, str_of_oid.
  rewrite length_hex_of. rewrite decide_True by done.
  unfold hex_digits_value. rewrite hex_digits_of.
  change (16 ^ N.of_nat 24) with (2 ^ 96).
  rewrite N.mod_small by done. by rewrite N.mul_0_l.
Qed.

Lemma object_id_round_trip_witness :
  255 < 2 ^ 96 /\ ObjectId (str_of_oid 255) = Ok 255.
Proof.
  assert (H : 255 < 2 ^ 96) by (vm_compute; reflexivity).
  split; [exact H | exact (object_id_round_trip 255 H)].
Defined.

Lemma save_calculation_Ok (calculations : gmap N pyval) (refusal : option exn)
    (new_id : N) (fecha : str) (request : SaveCalculationRequest.t)
    (message : string) (id : str) :
  fst (save_calculation calculations refusal new_id fecha request) = Ok (message, id) ->
  message = "Cálculo guardado exitosamente"%string
  /\ id = str_of_oid new_id
  /\ calculations !! new_id = None
  /\ snd (save_calculation calculations refusal new_id fecha request)
     = <[new_id := PDict (calculation_document fecha request)]> calculations.
Proof.
  unfold save_calculation, insert_one.
  destruct refusal as [e|]; [done|].
  destruct (calculations !! new_id) eqn:E; [done|].
  cbn. intros [= <- <-]. done.
Qed.

(** X6. When [save_calculation] answers with an id, deleting by that id
    succeeds and leaves the collection exactly as it was before the save. *)
Theorem save_then_delete_restores (calculations : gmap N pyval) (refusal : option exn)
    (new_id : N) (fecha : str) (request : SaveCalculationRequest.t)
    (message : string) (id : str) :
  new_id < 2 ^ 96 ->
  fst (save_calculation calculations refusal new_id fecha request) = Ok (message, id) ->
  delete_calculation (snd (save_calculation calculations refusal new_id fecha request)) id
  = (Ok "Cálculo eliminado exitosamente"%string, calculations).
Proof.
  intros Hid Hs. apply save_calculation_Ok in Hs as (_ & -> & Hnew & ->).
  rewrite (delete_calculation_stored _ _ new_id (PDict (calculation_document fecha request)));
    [|by apply object_id_round_trip|by apply lookup_insert_eq].
  by rewrite delete_insert_id.
Qed.

Lemma save_then_delete_restores_witness :
  2 < 2 ^ 96
  /\ fst (save_calculation one_calculation None 2 fecha_example request_ana)
     = Ok ("Cálculo guardado exitosamente"%string, missing_id)
  /\ delete_calculation
       (snd (save_calculation one_calculation None 2 fecha_example request_ana)) missing_id
     = (Ok "Cálculo eliminado exitosamente"%string, one_calculation).
Proof.
  assert (Hid : 2 < 2 ^ 96) by (vm_compute; reflexivity).
  assert (Hs : fst (save_calculation one_calculation None 2 fecha_example request_ana)
               = Ok ("Cálculo guardado exitosamente"%string, missing_id)).
  { unfold save_calculation, insert_one.
    assert (one_calculation !! 2 = None) as -> by (by apply lookup_singleton_ne).
    reflexivity. }
  split; [exact Hid|]. split; [exact Hs|].
  exact (save_then_delete_restores one_calculation None 2 fecha_example request_ana
           _ _ Hid Hs).
Defined.

(** X7. When [save_calculation] answers with an id, that id is the text of
    the new ObjectId, which no document had before; the collection has
    exactly one document more, every other document is as it was, and the
    new document gives back the labels, the values and the date of the
    request. *)
Theorem save_adds_one_document (calculations : gmap N pyval) (refusal : option exn)
    (new_id : N) (fecha : str) (request : SaveCalculationRequest.t)
    (message : string) (id : str) :
  fst (save_calculation calculations refusal new_id fecha request) = Ok (message, id) ->
  let calculations' := snd (save_calculation calculations refusal new_id fecha request) in
  id = str_of_oid new_id
  /\ calculations !! new_id = None
  /\ size calculations' = S (size calculations)
  /\ (forall other, other <> new_id -> calculations' !! other = calculations !! other)
  /\ exists doc, calculations' !! new_id = Some (PDict doc)
       /\ dict_lookup (txt "etiquetas") doc
          = Some (PList (map PStr (SaveCalculationRequest.etiquetas request)))
       /\ dict_lookup (txt "valores") doc
          = Some (PList (map PFloat (SaveCalculationRequest.valores request)))
       /\ dict_lookup (txt "fecha") doc = Some (PStr fecha).
Proof.
  intros Hs calculations'. subst calculations'.
  apply save_calculation_Ok in Hs as (_ & -> & Hnew & ->).
  split; [done|]. split; [done|].
  split; [by apply map_size_insert_None|]. split.
  - intros other Hne. by apply lookup_insert_ne.
  - eexists. split; [apply lookup_insert_eq|]. by repeat split.
Qed.

Lemma save_adds_one_document_witness :
  fst (save_calculation one_calculation None 2 fecha_example request_ana)
  = Ok ("Cálculo guardado exitosamente"%string, missing_id)
  /\ size (snd (save_calculation one_calculation None 2 fecha_example request_ana)) = 2%nat
  /\ snd (save_calculation one_calculation None 2 fecha_example request_ana) !! 1
     = one_calculation !! 1.
Proof.
  assert (Hs : fst (save_calculation one_calculation None 2 fecha_example request_ana)
               = Ok ("Cálculo guardado exitosamente"%string, missing_id)).
  { unfold save_calculation, insert_one.
    assert (one_calculation !! 2 = None) as -> by (by apply lookup_singleton_ne).
    reflexivity. }
  destruct (save_adds_one_document one_calculation None 2 fecha_example request_ana _ _ Hs)
    as (_ & _ & Hsize & Hother & _).
  split; [exact Hs|]. split.
  - rewrite Hsize. unfold one_calculation. by rewrite map_size_singleton.
  - by apply Hother.
Defined.

(** X8. A second deletion of the same id finds nothing: it is answered with
    status 500 (the wrapped 404) and changes nothing more. *)
Theorem delete_twice_fails_the_second_time (calculations : gmap N pyval)
    (calculation_id : str) (oid : N) (doc : pyval) :
  ObjectId calculation_id = Ok oid ->
  calculations !! oid = Some doc ->
  delete_calculation (snd (delete_calculation calculations calculation_id)) calculation_id
  = (Raise (HTTPException 500
              (Formatted "Error al eliminar el cálculo: "
                 (HTTPException 404 (Literal "Cálculo no encontrado")))),
     delete oid calculations).
Proof.
  intros Ho Hl. rewrite (delete_calculation_stored _ _ _ _ Ho Hl). cbn [snd].
  apply (delete_calculation_missing _ _ oid); [done | apply lookup_delete_eq].
Qed.

Lemma delete_twice_fails_the_second_time_witness :
  ObjectId stored_id = Ok 1
  /\ delete_calculation (snd (delete_calculation one_calculation stored_id)) stored_id
     = (Raise (HTTPException 500
                 (Formatted "Error al eliminar el cálculo: "
                    (HTTPException 404 (Literal "Cálculo no encontrado")))),
        delete 1 one_calculation).
Proof.
  assert (Ho : ObjectId stored_id = Ok 1) by (vm_compute; reflexivity).
  split; [exact Ho|].
  apply (delete_twice_fails_the_second_time one_calculation stored_id 1
           (PDict [(txt "nombre", PStr (txt "Ana"))]) Ho).
  apply lookup_singleton_eq.
Defined.

(** ** The WhatsApp link *)

Lemma text_ok_check (s : str) : forallb scalar s = true -> text_ok s.
Proof. intros H. apply Forall_forall. intros c Hc. eapply forallb_forall in H; [done|]. by apply list_elem_of_In. Qed.

Lemma text_ok_app (s t : str) : text_ok s -> text_ok t -> text_ok (s ++ t).
Proof. intros Hs Ht. apply Forall_app. by split. Qed.

Lemma text_ok_uint (d : Decimal.uint) : text_ok (str_of_uint d).
Proof.
  unfold text_ok. induction d; simpl;
    [constructor | constructor; [reflexivity | assumption] ..].
Qed.

Lemma text_ok_two_digits (n : N) : n < 100 -> text_ok (two_digits n).
Proof.
  intros Hn. unfold two_digits.
  assert (n / 10 < 10) by (apply N.Div0.div_lt_upper_bound; lia).
  assert (n mod 10 < 10) by (apply N.mod_lt; lia).
  repeat constructor; unfold scalar; apply orb_true_iff; left; apply N.ltb_lt; lia.
Qed.

Lemma text_ok_format_2f (x : spec_float) : text_ok (format_2f x).
Proof.
  assert (Hsign : forall s : bool, text_ok (if s then txt "-" else [])).
  { intros [|]; by apply text_ok_check. }
  destruct x as [s|s| |s m e]; unfold format_2f.
  - apply text_ok_app; [apply Hsign | by apply text_ok_check].
  - apply text_ok_app; [apply Hsign | by apply text_ok_check].
  - by apply text_ok_check.
  - cbv zeta. apply text_ok_app; [apply Hsign|].
    apply text_ok_app; [apply text_ok_uint|].
    apply text_ok_app; [by apply text_ok_check|].
    apply text_ok_two_digits, N.mod_lt. lia.
Qed.

Lemma text_ok_value_line (etiquetas : list str) (i : nat) (valor : spec_float) :
  Forall text_ok etiquetas -> text_ok (value_line etiquetas i valor).
Proof.
  intros He. unfold value_line. cbv zeta.
  apply text_ok_app.
  - destruct (etiquetas !! i) as [etiqueta|] eqn:E.
    + eapply Forall_forall in He; [exact He|]. by eapply list_elem_of_lookup_2.
    + apply text_ok_app; [by apply text_ok_check | apply text_ok_uint].
  - apply text_ok_app; [by apply text_ok_check|].
    apply text_ok_app; [apply text_ok_format_2f|].
    apply text_ok_app; by apply text_ok_check.
Qed.

Lemma text_ok_value_lines (etiquetas : list str) (valores : list spec_float) :
  Forall text_ok etiquetas -> text_ok (concat (imap (value_line etiquetas) valores)).
Proof.
  intros He. apply Forall_concat. apply Forall_forall. intros line Hline.
  apply list_elem_of_lookup in Hline as [i Hi].
  rewrite list_lookup_imap in Hi.
  destruct (valores !! i) as [valor|]; [|done]. injection Hi as <-.
  by apply text_ok_value_line.
Qed.

Ltac text_ok_step :=
  first [ assumption
        | apply text_ok_format_2f
        | apply text_ok_check; reflexivity
        | apply text_ok_app ].

Lemma text_ok_calculo (calculo : CalculoLocal.t) :
  calculo_ok calculo -> text_ok (calculo_text calculo).
Proof.
  intros (Hn & Ht & Hd & Hp & Hq & He). unfold calculo_text.
  pose proof (text_ok_value_lines _ (CalculoLocal.valores calculo) He) as Hlines.
  repeat text_ok_step.
Qed.

Lemma text_ok_message (calculos : list CalculoLocal.t) :
  Forall calculo_ok calculos -> text_ok (whatsapp_message calculos).
Proof.
  intros Hc. unfold whatsapp_message.
  apply text_ok_app; [by apply text_ok_check|].
  apply text_ok_app; [by apply text_ok_check|].
  apply text_ok_app; [by apply text_ok_check|].
  apply Forall_concat, Forall_forall. intros t Ht.
  apply list_elem_of_fmap in Ht as (calculo & -> & Hin).
  apply text_ok_calculo. by eapply Forall_forall in Hc.
Qed.

Lemma utf8_char_scalar (c : char) :
  scalar c = true -> exists bs, utf8_char c = Ok bs.
Proof.
  unfold scalar, utf8_char. intros H.
  destruct (c <? 0x80); [eauto|]. destruct (c <? 0x800); [eauto|].
  destruct (N.ltb_spec c 0xD800) as [Hlt|Hge]; simpl in H.
  - destruct (N.leb_spec 0xD800 c); [lia|]. simpl.
    destruct (N.ltb_spec c 0x10000); [eauto | lia].
  - apply andb_true_iff in H as [H1 H2]. apply N.ltb_lt in H1, H2.
    destruct (N.leb_spec c 0xDFFF); [lia|]. rewrite andb_false_r.
    destruct (c <? 0x10000); [eauto|]. destruct (N.ltb_spec c 0x110000); [eauto | lia].
Qed.

Lemma utf8_encode_scalar (s : str) : text_ok s -> exists bs, utf8_encode s = Ok bs.
Proof.
  induction 1 as [|c t Hc _ [bs IH]]; simpl; [eauto|].
  destruct (utf8_char_scalar c Hc) as [b ->]. simpl. rewrite IH. simpl. eauto.
Qed.

Lemma utf8_char_bytes (c : char) (bs : list N) :
  utf8_char c = Ok bs -> Forall (fun b => b < 256) bs.
Proof.
  unfold utf8_char.
  destruct (N.ltb_spec c 0x80); [intros [= <-]; repeat constructor; lia|].
  destruct (N.ltb_spec c 0x800).
  { intros [= <-].
    assert (c / 64 < 32) by (apply N.Div0.div_lt_upper_bound; lia).
    assert (c mod 64 < 64) by (apply N.mod_lt; lia).
    repeat constructor; lia. }
  destruct (_ && _); [done|].
  destruct (N.ltb_spec c 0x10000).
  { intros [= <-].
    assert (c / 4096 < 16) by (apply N.Div0.div_lt_upper_bound; lia).
    assert ((c / 64) mod 64 < 64) by (apply N.mod_lt; lia).
    assert (c mod 64 < 64) by (apply N.mod_lt; lia).
    repeat constructor; lia. }
  destruct (N.ltb_spec c 0x110000); [|done].
  intros [= <-].
  assert (c / 262144 < 8) by (apply N.Div0.div_lt_upper_bound; lia).
  assert ((c / 4096) mod 64 < 64) by (apply N.mod_lt; lia).
  assert ((c / 64) mod 64 < 64) by (apply N.mod_lt; lia).
  assert (c mod 64 < 64) by (apply N.mod_lt; lia).
  repeat constructor; lia.
Qed.

Lemma utf8_encode_bytes (s : str) (bs : list N) :
  utf8_encode s = Ok bs -> Forall (fun b => b < 256) bs.
Proof.
  revert bs. induction s as [|c t IH]; intros bs; simpl; [by intros [= <-]|].
  destruct (utf8_char c) as [b|] eqn:E; simpl; [|done].
  destruct (utf8_encode t) as [bt|]; simpl; [|done].
  intros [= <-]. apply Forall_app. split; [by eapply utf8_char_bytes | by apply IH].
Qed.

Lemma upper_hex_digit_safe (n : N) : n < 16 -> quote_safe (upper_hex_digit n) = true.
Proof.
  intros Hn.
  assert (Hcases : In n [0; 1; 2; 3; 4; 5; 6; 7; 8; 9; 10; 11; 12; 13; 14; 15]).
  { destruct n as [|p]; [by left|].
    do 4 (destruct p as [p|p|]; try (simpl; tauto)); lia. }
  simpl in Hcases.
  repeat (destruct Hcases as [<-|Hcases]; [reflexivity|]). done.
Qed.

Lemma quote_byte_chars (b : N) : b < 256 -> Forall url_char (quote_byte b).
Proof.
  intros Hb. unfold quote_byte. destruct (quote_safe b) eqn:E.
  - constructor; [by left | constructor].
  - assert (b / 16 < 16) by (apply N.Div0.div_lt_upper_bound; lia).
    assert (b mod 16 < 16) by (apply N.mod_lt; lia).
    constructor; [by right|].
    constructor; [left; by apply upper_hex_digit_safe|].
    constructor; [left; by apply upper_hex_digit_safe | constructor].
Qed.

Lemma quote_url_chars (s enc : str) : quote_url s = Ok enc -> Forall url_char enc.
Proof.
  unfold quote_url. destruct (utf8_encode s) as [bs|] eqn:E; simpl; [|done].
  intros [= <-]. apply utf8_encode_bytes in E.
  apply Forall_concat, Forall_forall. intros q Hq.
  apply list_elem_of_fmap in Hq as (b & -> & Hb).
  apply quote_byte_chars. by eapply Forall_forall in E.
Qed.

(** X9. With no calculation in the request, [generar_whatsapp_link_local]
    answers 404 "No se encontraron cálculos", and the status reaches the
    client as raised: this handler re-raises an HTTPException before its
    catch-all clause. *)
Theorem whatsapp_local_empty_is_404 (request : SendWhatsAppLocalRequest.t) :
  SendWhatsAppLocalRequest.calculos request = [] ->
  generar_whatsapp_link_local request
  = Raise (HTTPException 404 (Literal "No se encontraron cálculos")).
Proof.
  intros H. unfold generar_whatsapp_link_local. by rewrite H.
Qed.

Lemma whatsapp_local_empty_is_404_witness :
  SendWhatsAppLocalRequest.calculos request_whatsapp_empty = []
  /\ generar_whatsapp_link_local request_whatsapp_empty
     = Raise (HTTPException 404 (Literal "No se encontraron cálculos")).
Proof.
  split; [reflexivity|].
  by apply (whatsapp_local_empty_is_404 request_whatsapp_empty).
Defined.

(** X10. The cleaned telephone number is the given one with exactly the
    characters plus, space and hyphen taken out: none of the three is left,
    and every other character stays, in order. *)
Theorem clean_phone_removes_exactly (telefono : str) :
  clean_phone telefono
  = filter (fun c => c <> chr "-" /\ c <> chr " " /\ c <> chr "+") telefono
  /\ (chr "+" ∉ clean_phone telefono)
  /\ (chr " " ∉ clean_phone telefono)
  /\ (chr "-" ∉ clean_phone telefono).
Proof.
  assert (E : clean_phone telefono
              = filter (fun c => c <> chr "-" /\ c <> chr " " /\ c <> chr "+") telefono).
  { unfold clean_phone, remove_char. rewrite !list_filter_filter.
    apply list_filter_iff. intros c. tauto. }
  split; [exact E|]. rewrite E.
  repeat split; intros Hin; apply list_elem_of_filter in Hin as [(H1 & H2 & H3) _]; done.
Qed.

(** X11. Whenever [generar_whatsapp_link_local] returns, the link is
    "https://wa.me/", the cleaned telephone number, "?text=" and a text made
    only of ASCII letters, digits, [_.-~/] and percent escapes; the response
    counts every calculation of the request. *)
Theorem whatsapp_link_shape (request : SendWhatsAppLocalRequest.t) (r : WhatsAppLink.t) :
  generar_whatsapp_link_local request = Ok r ->
  exists encoded,
    WhatsAppLink.whatsapp_link r
    = txt "https://wa.me/" ++ clean_phone (SendWhatsAppLocalRequest.telefono request)
      ++ txt "?text=" ++ encoded
    /\ Forall url_char encoded
    /\ quote_url (whatsapp_message (SendWhatsAppLocalRequest.calculos request)) = Ok encoded
    /\ WhatsAppLink.telefono r = clean_phone (SendWhatsAppLocalRequest.telefono request)
    /\ WhatsAppLink.calculos_incluidos r
       = length (SendWhatsAppLocalRequest.calculos request).
Proof.
  unfold generar_whatsapp_link_local. cbv zeta.
  destruct (SendWhatsAppLocalRequest.calculos request) as [|c cs] eqn:Ec; [done|].
  destruct (quote_url (whatsapp_message (c :: cs))) as [encoded|e] eqn:Eq; simpl.
  - intros [= <-]. exists encoded. simpl. repeat split; try done.
    by eapply quote_url_chars.
  - by destruct e.
Qed.

Lemma whatsapp_link_shape_witness :
  exists r encoded,
    generar_whatsapp_link_local request_whatsapp_ana = Ok r
    /\ WhatsAppLink.whatsapp_link r = txt "https://wa.me/34600123456?text=" ++ encoded
    /\ Forall url_char encoded
    /\ WhatsAppLink.telefono r = txt "34600123456"
    /\ WhatsAppLink.calculos_incluidos r = 1%nat.
Proof.
  destruct (generar_whatsapp_link_local request_whatsapp_ana) as [r|e] eqn:E;
    [|by vm_compute in E].
  destruct (whatsapp_link_shape request_whatsapp_ana r E) as (encoded & Hl & Hc & _ & Ht & Hn).
  exists r, encoded. split; [done|]. split; [exact Hl|]. split; [exact Hc|].
  split; [exact Ht | exact Hn].
Defined.

(** X12. For every request with at least one calculation whose texts hold no
    surrogate code point, [generar_whatsapp_link_local] returns a link:
    neither the formatting of the numbers nor the encoding can fail. *)
Theorem whatsapp_local_succeeds (request : SendWhatsAppLocalRequest.t) :
  SendWhatsAppLocalRequest.calculos request <> [] ->
  Forall calculo_ok (SendWhatsAppLocalRequest.calculos request) ->
  exists r, generar_whatsapp_link_local request = Ok r.
Proof.
  intros Hne Hok. unfold generar_whatsapp_link_local. cbv zeta.
  destruct (SendWhatsAppLocalRequest.calculos request) as [|c cs] eqn:Ec; [done|].
  destruct (utf8_encode_scalar _ (text_ok_message _ Hok)) as [bs Hbs].
  unfold quote_url. rewrite Hbs. simpl. eauto.
Qed.

Lemma whatsapp_local_succeeds_witness :
  exists r, generar_whatsapp_link_local request_whatsapp_ana = Ok r.
Proof.
  apply (whatsapp_local_succeeds request_whatsapp_ana); [done|].
  constructor; [|constructor].
  repeat split; try (apply text_ok_check; reflexivity).
  constructor; [apply text_ok_check; reflexivity | constructor].
Defined.

Lemma utf8_char_not_scalar (c : char) :
  scalar c = false -> utf8_char c = Raise UnicodeEncodeError.
Proof.
  unfold scalar, utf8_char. intros H. apply orb_false_iff in H as [H1 H2].
  apply N.ltb_ge in H1.
  destruct (N.ltb_spec c 0x80); [lia|]. destruct (N.ltb_spec c 0x800); [lia|].
  destruct (N.leb_spec 0xD800 c); [|lia].
  destruct (N.leb_spec c 0xDFFF); [done|]. cbn [andb].
  destruct (N.ltb_spec 0xDFFF c); [|lia]. cbn [andb] in H2. apply N.ltb_ge in H2.
  destruct (N.ltb_spec c 0x10000); [lia|]. by destruct (N.ltb_spec c 0x110000); [lia|].
Qed.

Lemma utf8_encode_not_scalar (s : str) :
  Exists (fun c => scalar c = false) s -> utf8_encode s = Raise UnicodeEncodeError.
Proof.
  induction s as [|c t IH]; intros H; [by inversion H|]. simpl.
  destruct (scalar c) eqn:Ec.
  - destruct (utf8_char_scalar c Ec) as [b ->]. simpl.
    rewrite IH; [done|]. inversion H as [? ? Hc|? ? Ht]; subst; [congruence | done].
  - by rewrite utf8_char_not_scalar.
Qed.

(** X13. A surrogate code point in the name of any calculation of the
    request makes the encoding of the message fail: the handler answers 500
    with UnicodeEncodeError in the detail. *)
Theorem whatsapp_local_surrogate_is_500 (request : SendWhatsAppLocalRequest.t)
    (calculo : CalculoLocal.t) (c : char) :
  calculo ∈ SendWhatsAppLocalRequest.calculos request ->
  c ∈ CalculoLocal.nombre calculo ->
  0xD800 <= c <= 0xDFFF ->
  generar_whatsapp_link_local request
  = Raise (HTTPException 500
             (Formatted "Error al generar enlace de WhatsApp: " UnicodeEncodeError)).
Proof.
  intros Hin Hc Hs. unfold generar_whatsapp_link_local. cbv zeta.
  destruct (SendWhatsAppLocalRequest.calculos request) as [|c0 cs] eqn:Ec;
    [by apply elem_of_nil in Hin|].
  unfold quote_url. rewrite utf8_encode_not_scalar; [done|].
  apply Exists_exists. exists c. split.
  - unfold whatsapp_message. rewrite !elem_of_app. right. right. right.
    apply list_elem_of_In, in_concat. exists (calculo_text calculo). split.
    + apply in_map. by apply list_elem_of_In.
    + apply list_elem_of_In. unfold calculo_text. rewrite !elem_of_app. auto.
  - unfold scalar. destruct (N.ltb_spec c 0xD800); [lia|].
    destruct (N.ltb_spec 0xDFFF c); [lia | done].
Qed.

Lemma whatsapp_local_surrogate_is_500_witness :
  generar_whatsapp_link_local
    {| SendWhatsAppLocalRequest.telefono := txt "600";
       SendWhatsAppLocalRequest.calculos := [calculo_surrogate] |}
  = Raise (HTTPException 500
             (Formatted "Error al generar enlace de WhatsApp: " UnicodeEncodeError)).
Proof.
  apply (whatsapp_local_surrogate_is_500 _ calculo_surrogate 0xD83D).
  - apply list_elem_of_In. by left.
  - apply list_elem_of_In. simpl. tauto.
  - lia.
Defined.

(** * Properties of the listing and of the lookup of stored calculations *)

(** ** Listing the calculations *)

Lemma subscript_Ok (d : list (str * pyval)) (key : string) :
  dict_lookup (txt key) d <> None -> exists v, subscript d key = Ok v /\ dict_lookup (txt key) d = Some v.
Proof.
  intros H. unfold subscript. destruct (dict_lookup (txt key) d) as [v|]; [eauto | done].
Qed.

Lemma listing_row_complete (doc : N * list (str * pyval)) :
  complete doc -> exists row, listing_row doc = Ok row /\ row_of doc row.
Proof.
  destruct doc as [oid d]. unfold complete, required_keys. cbn [snd].
  intros H. repeat (apply Forall_cons in H as [?%subscript_Ok H]).
  repeat match goal with
         | Hx : exists v, subscript d _ = Ok v /\ _ |- _ => destruct Hx as (? & ? & ?)
         end.
  unfold listing_row.
  repeat match goal with
         | Hx : subscript d _ = Ok _ |- _ => rewrite Hx; clear Hx
         end.
  cbn [mbind res_bind]. eexists. split; [reflexivity|].
  unfold row_of, required_keys, optional_keys. cbn [fst snd].
  split; [reflexivity|]. split.
  - repeat (apply Forall_cons; split; [symmetry; eassumption|]). constructor.
  - repeat (apply Forall_cons; split; [reflexivity|]). constructor.
Qed.

Lemma subscript_cases (d : list (str * pyval)) (key : string) :
  (exists v, dict_lookup (txt key) d = Some v /\ subscript d key = Ok v)
  \/ (dict_lookup (txt key) d = None /\ subscript d key = Raise (KeyError key)).
Proof. unfold subscript. destruct (dict_lookup (txt key) d); eauto. Qed.

Ltac subscript_or_raise d key :=
  let v := fresh "v" in
  let E := fresh "E" in
  let S := fresh "S" in
  destruct (subscript_cases d key) as [(v & E & S)|[E S]]; rewrite S;
  [ cbn [mbind res_bind]
  | exists key; split; [unfold required_keys; repeat constructor | reflexivity] ].

Lemma listing_row_incomplete (doc : N * list (str * pyval)) :
  ~ complete doc ->
  exists key, key ∈ required_keys /\ listing_row doc = Raise (KeyError key).
Proof.
  destruct doc as [oid d]. unfold complete. cbn [snd]. intros H.
  unfold listing_row.
  subscript_or_raise d "nombre"%string.
  subscript_or_raise d "telefono"%string.
  subscript_or_raise d "direccion"%string.
  subscript_or_raise d "fecha"%string.
  subscript_or_raise d "total_consumo"%string.
  subscript_or_raise d "horas_sol_estandar"%string.
  subscript_or_raise d "horas_sol_calculadas"%string.
  subscript_or_raise d "factor_placas"%string.
  subscript_or_raise d "total_placas"%string.
  exfalso. apply H. unfold required_keys.
  repeat (apply Forall_cons; split; [congruence|]). constructor.
Qed.

Lemma complete_dec (doc : N * list (str * pyval)) : complete doc \/ ~ complete doc.
Proof.
  unfold complete. destruct (decide (Forall (fun key => dict_lookup (txt key) (snd doc) <> None) required_keys)); auto.
Qed.

(** X14. One document of the cursor that lacks a key read with [doc[key]]
    makes the whole listing fail: [get_calculations] answers 500 with a
    KeyError of one of these keys, whatever the other documents hold. *)
Theorem listing_fails_on_incomplete_document
    (find : query -> res (list (N * list (str * pyval)))) (search : option str)
    (cursor : list (N * list (str * pyval))) :
  find (build_query search) = Ok cursor ->
  Exists (fun doc => ~ complete doc) cursor ->
  exists key, key ∈ required_keys
    /\ get_calculations find search
       = Raise (HTTPException 500
                  (Formatted "Error al obtener el historial: " (KeyError key))).
Proof.
  intros Hf Hex. unfold get_calculations. rewrite Hf. cbn [mbind res_bind].
  assert (H : exists key, key ∈ required_keys /\ mapM listing_row cursor = Raise (KeyError key)).
  { clear Hf. induction Hex as [doc cursor Hn|doc cursor _ (key & Hk & IH)]; cbn [mapM].
    - destruct (listing_row_incomplete doc Hn) as (key & Hk & ->). by exists key.
    - destruct (complete_dec doc) as [Hc|Hn].
      + destruct (listing_row_complete doc Hc) as (row & -> & _). cbn [mbind res_bind].
        rewrite IH. by exists key.
      + destruct (listing_row_incomplete doc Hn) as (key' & Hk' & ->). by exists key'. }
  destruct H as (key & Hk & ->). by exists key.
Qed.

Lemma listing_fails_on_incomplete_document_witness :
  find_example (build_query None)
    = Ok [(2, calculation_document fecha_example request_ana); document_without_fecha]
  /\ exists key, key ∈ required_keys
       /\ get_calculations find_example None
          = Raise (HTTPException 500
                     (Formatted "Error al obtener el historial: " (KeyError key))).
Proof.
  split; [reflexivity|].
  apply (listing_fails_on_incomplete_document find_example None _ eq_refl).
  apply Exists_cons_tl, Exists_cons_hd. unfold complete, required_keys.
  intros H. do 3 (apply Forall_cons in H as [_ H]). apply Forall_cons in H as [H _].
  by apply H.
Defined.

(** X15. When every document of the cursor has the keys read with
    [doc[key]], the listing returns one row per document, in order: each row
    carries the text of the document's id, the document's own value for
    every such key, and for each optional key the document's value or the
    default ("" or the empty list). *)
Theorem listing_of_complete_documents
    (find : query -> res (list (N * list (str * pyval)))) (search : option str)
    (cursor : list (N * list (str * pyval))) :
  find (build_query search) = Ok cursor ->
  Forall complete cursor ->
  exists rows, get_calculations find search = Ok rows /\ Forall2 row_of cursor rows.
Proof.
  intros Hf Hc. unfold get_calculations. rewrite Hf. cbn [mbind res_bind].
  assert (H : exists rows, mapM listing_row cursor = Ok rows /\ Forall2 row_of cursor rows).
  { clear Hf. induction Hc as [|doc cursor Hd _ (rows & E & H2)].
    - exists (@nil (list (str * pyval))). split; [reflexivity | constructor].
    - destruct (listing_row_complete doc Hd) as (row & Er & Hr).
      exists (row :: rows). cbn [mapM]. rewrite Er. cbn [mbind res_bind]. rewrite E.
      split; [reflexivity | by constructor]. }
  destruct H as (rows & -> & H2). by exists rows.
Qed.

Lemma listing_of_complete_documents_witness :
  Forall complete [(2, calculation_document fecha_example request_ana)]
  /\ exists rows, get_calculations find_saved (Some (txt "ana")) = Ok rows
       /\ Forall2 row_of [(2, calculation_document fecha_example request_ana)] rows.
Proof.
  assert (Hc : Forall complete [(2, calculation_document fecha_example request_ana)]).
  { constructor; [|constructor]. unfold complete, required_keys.
    repeat (apply Forall_cons; split; [by vm_compute|]). constructor. }
  split; [exact Hc|].
  exact (listing_of_complete_documents find_saved (Some (txt "ana")) _ eq_refl Hc).
Defined.

(** X16. The listing gives back what was saved: when the cursor yields
    documents written by [save_calculation], the listing cannot fail, and
    the row of each document is the text of its id (the id
    [save_calculation] answered) followed by exactly the fields that were
    saved, in the same order. *)
Theorem saved_documents_list_as_saved
    (find : query -> res (list (N * list (str * pyval)))) (search : option str)
    (saved : list (N * str * SaveCalculationRequest.t)) :
  find (build_query search) = Ok (map saved_document saved) ->
  get_calculations find search = Ok (map saved_row saved).
Proof.
  intros Hf. unfold get_calculations. rewrite Hf. cbn [mbind res_bind].
  assert (E : mapM listing_row (map saved_document saved) = Ok (map saved_row saved)).
  { clear Hf. induction saved as [|[[oid fecha] request] saved IH]; [reflexivity|].
    cbn [map mapM]. change (listing_row (saved_document (oid, fecha, request)))
      with (Ok (saved_row (oid, fecha, request))).
    cbn [mbind res_bind]. by rewrite IH. }
  by rewrite E.
Qed.

Lemma saved_documents_list_as_saved_witness :
  get_calculations find_saved (Some (txt "ana"))
  = Ok (map saved_row [(2, fecha_example, request_ana)]).
Proof.
  apply (saved_documents_list_as_saved find_saved (Some (txt "ana"))
           [(2, fecha_example, request_ana)]).
  reflexivity.
Defined.

(** ** The calculations named by a request *)

Lemma ObjectId_cases (s : str) : (exists oid, ObjectId s = Ok oid) \/ ObjectId s = Raise InvalidId.
Proof.
  unfold ObjectId. case_decide; [|by right].
  destruct (hex_digits_value s); [left; eauto | by right].
Qed.

Lemma find_calculos_Ok (calculations : gmap N pyval) (calculo_ids : list str)
    (oids : list N) (calculos : list pyval) :
  Forall2 (fun calculo_id oid => ObjectId calculo_id = Ok oid) calculo_ids oids ->
  find_calculos calculations calculo_ids calculos
  = Ok (calculos ++ omap (fun oid => calculations !! oid) oids).
Proof.
  intros H. revert calculos.
  induction H as [|calculo_id oid ids oids Ho _ IH]; intros calculos.
  - cbn. by rewrite app_nil_r.
  - cbn [find_calculos]. rewrite Ho. cbn [mbind res_bind]. rewrite IH.
    change (omap (fun oid => calculations !! oid) (oid :: oids))
      with (match calculations !! oid with
            | Some calculo => calculo :: omap (fun oid => calculations !! oid) oids
            | None => omap (fun oid => calculations !! oid) oids
            end).
    destruct (calculations !! oid); [|done].
    by rewrite <- app_assoc.
Qed.

Lemma find_calculos_invalid (calculations : gmap N pyval) (calculo_ids : list str)
    (calculos : list pyval) :
  Exists (fun calculo_id => ObjectId calculo_id = Raise InvalidId) calculo_ids ->
  find_calculos calculations calculo_ids calculos = Raise InvalidId.
Proof.
  intros H. revert calculos.
  induction calculo_ids as [|calculo_id ids IH]; intros calculos; [by inversion H|].
  cbn [find_calculos]. destruct (ObjectId_cases calculo_id) as [[oid Ho]|Ho].
  - rewrite Ho. cbn [mbind res_bind]. apply IH.
    inversion H as [? ? Hbad|? ? Hrest]; subst; [congruence | done].
  - by rewrite Ho.
Qed.

(** X17. When every id of the request is well formed but names no stored
    document (in particular when the request has no id), [send_email] and
    [generar_whatsapp_link] answer 404 "No se encontraron cálculos": the
    404 is not turned into a 500, and the rest of the handler is not run. *)
Theorem stored_handlers_answer_404 {A} (prefix : string) (render : list pyval -> res A)
    (calculations : gmap N pyval) (calculo_ids : list str) :
  Forall (fun calculo_id => exists oid, ObjectId calculo_id = Ok oid
                                          /\ calculations !! oid = None) calculo_ids ->
  with_stored_calculos prefix render calculations calculo_ids
  = Raise (HTTPException 404 (Literal "No se encontraron cálculos")).
Proof.
  intros H. unfold with_stored_calculos.
  assert (E : forall calculos, find_calculos calculations calculo_ids calculos = Ok calculos).
  { induction H as [|calculo_id ids (oid & Ho & Hl) _ IH]; intros calculos; [done|].
    cbn [find_calculos]. rewrite Ho. cbn [mbind res_bind]. by rewrite Hl. }
  by rewrite E.
Qed.

Lemma stored_handlers_answer_404_witness :
  with_stored_calculos "Error al enviar email: " (fun calculos => Ok (length calculos))
    one_calculation [missing_id; missing_id]
  = Raise (HTTPException 404 (Literal "No se encontraron cálculos")).
Proof.
  apply stored_handlers_answer_404.
  assert (H : exists oid, ObjectId missing_id = Ok oid /\ one_calculation !! oid = None).
  { exists 2. split; [vm_compute; reflexivity | by apply lookup_singleton_ne]. }
  repeat constructor; exact H.
Defined.

(** X18. One malformed id in the request makes [send_email] and
    [generar_whatsapp_link] answer 500 with InvalidId in the detail, even
    when the other ids name stored documents; the rest of the handler is not
    run. *)
Theorem stored_handlers_malformed_id_is_500 {A} (prefix : string)
    (render : list pyval -> res A) (calculations : gmap N pyval) (calculo_ids : list str) :
  Exists (fun calculo_id => ObjectId calculo_id = Raise InvalidId) calculo_ids ->
  with_stored_calculos prefix render calculations calculo_ids
  = Raise (HTTPException 500 (Formatted prefix InvalidId)).
Proof.
  intros H. unfold with_stored_calculos.
  by rewrite (find_calculos_invalid _ _ _ H).
Qed.

Lemma stored_handlers_malformed_id_is_500_witness :
  with_stored_calculos "Error al generar enlace de WhatsApp: "
    (fun calculos => Ok (length calculos)) one_calculation [stored_id; txt "not-an-id"]
  = Raise (HTTPException 500
             (Formatted "Error al generar enlace de WhatsApp: " InvalidId)).
Proof.
  apply stored_handlers_malformed_id_is_500.
  apply Exists_cons_tl, Exists_cons_hd. vm_compute. reflexivity.
Defined.

(** X19. When all ids are well formed and at least one names a stored
    document, the rest of the handler is run on exactly the stored documents
    the ids name, in the order of the request (an id repeated gives its
    document again, an unknown id gives none), and its exceptions other than
    HTTPException come out as a 500. *)
Theorem stored_handlers_render_the_found {A} (prefix : string)
    (render : list pyval -> res A) (calculations : gmap N pyval)
    (calculo_ids : list str) (oids : list N) :
  Forall2 (fun calculo_id oid => ObjectId calculo_id = Ok oid) calculo_ids oids ->
  Exists (fun oid => calculations !! oid <> None) oids ->
  with_stored_calculos prefix render calculations calculo_ids
  = except_HTTPException_raise prefix
      (render (omap (fun oid => calculations !! oid) oids)).
Proof.
  intros H Hex. unfold with_stored_calculos.
  rewrite (find_calculos_Ok _ _ _ [] H). cbn [app mbind res_bind].
  destruct (omap (fun oid => calculations !! oid) oids) as [|c l] eqn:E; [|done].
  exfalso. clear H. induction Hex as [oid oids Hn|oid oids _ IH].
  - cbn in E. by destruct (calculations !! oid).
  - cbn in E. destruct (calculations !! oid); [done | by apply IH].
Qed.

Lemma stored_handlers_render_the_found_witness :
  with_stored_calculos "Error al enviar email: " (fun calculos => Ok (length calculos))
    one_calculation [stored_id; missing_id; stored_id]
  = except_HTTPException_raise "Error al enviar email: "
      (Ok (length (omap (fun oid => one_calculation !! oid) [1; 2; 1]))).
Proof.
  apply (stored_handlers_render_the_found _ (fun calculos => Ok (length calculos))).
  - repeat constructor; vm_compute; reflexivity.
  - apply Exists_cons_hd. by vm_compute.
Defined.
